(** * xadmin-server: the login guard of [system/views/auth.py]

    A shallow embedding of the authentication views ([RegisterView.post],
    [LoginView.post], [LogoutView.post]) and of [save_login_log], written
    as state-and-exception passing over an explicit [World]: the shared
    cache (block ledger, access-token blacklist), the relational store
    (users, departments, login log), the refresh-token blacklist of the JWT
    library and the clock.  A ghost [trace] records the order in which a
    request performs its steps. *)

From Stdlib Require Import ZArith Lia.
From stdpp Require Import base option gmap strings list fin_maps pretty.

Open Scope Z_scope.

(** ** Settings ([django.conf.settings]) *)

Record Settings := {
  SECURITY_REGISTER_ACCESS_ENABLED : bool;
  SECURITY_REGISTER_TEMP_TOKEN_ENABLED : bool;
  SECURITY_REGISTER_CAPTCHA_ENABLED : bool;
  SECURITY_REGISTER_ENCRYPTED_ENABLED : bool;
  SECURITY_LOGIN_ACCESS_ENABLED : bool;
  SECURITY_LOGIN_TEMP_TOKEN_ENABLED : bool;
  SECURITY_LOGIN_CAPTCHA_ENABLED : bool;
  SECURITY_LOGIN_ENCRYPTED_ENABLED : bool;
  (* block time of an account, in minutes (auth.py, lines 156 and 159) *)
  SECURITY_LOGIN_LIMIT_TIME : Z;
  (* the thresholds and the block time of an address: section 6 of the
     specification, "numeric thresholds for failed-attempt limits and block
     durations (minutes)", distinct for username and IP (section 4.3) *)
  SECURITY_LOGIN_LIMIT_COUNT : Z;
  SECURITY_LOGIN_IP_LIMIT_COUNT : Z;
  SECURITY_LOGIN_IP_LIMIT_TIME : Z;
  (* SIMPLE_JWT token lifetimes, in seconds *)
  ACCESS_TOKEN_LIFETIME : Z;
  REFRESH_TOKEN_LIFETIME : Z
}.

(** ** Data model *)

(** [system.models.UserInfo], the columns the views touch. *)
Record UserInfo := {
  pk : Z;
  username : string;
  password : string;
  first_name : string;
  nickname : string;
  is_active : bool;
  last_login : option Z;
  dept : option string;
  dept_belong : option string
}.

(** [system.models.DeptInfo], the columns the registration query filters on. *)
Record DeptInfo := {
  dept_code : string;
  dept_is_active : bool;
  auto_bind : bool
}.

(** [UserLoginLog.LoginTypeChoices]; [USERNAME] is the default of
    [save_login_log]. *)
Inductive LoginTypeChoices := USERNAME | SMS | WECHAT.

(** One row of [UserLoginLog], as [save_login_log] fills it. *)
Record UserLoginLog := {
  log_creator : option Z;
  log_ipaddress : string;
  log_browser : string;
  log_system : string;
  log_status : bool;
  log_agent : string;
  log_login_type : LoginTypeChoices
}.

(** BlockRecord (specification, section 3), one per identity key: the
    count of failures, the end of the block if one is set, and the
    cache-level expiry of the record. *)
Record BlockRecord := {
  failed_count : Z;
  blocked_until : option Z;
  expires_at : Z
}.

(** TokenBlacklistEntry (specification, section 3): the sentinel value and
    the time to live it was stored with; [entry_expiry] is the cache-level
    expiry, the time of the write plus the time to live. *)
Record BlacklistEntry := {
  entry_value : Z;
  entry_ttl : Z;
  entry_expiry : Z
}.

(** A token of [rest_framework_simplejwt]: its type and the claims
    [user_id], [exp] and [jti]. *)
Inductive TokenType := AccessType | RefreshType.

Record Token := {
  token_type : TokenType;
  token_user_id : Z;
  token_exp : Z;
  token_jti : Z
}.

(** What the body of a request may carry under [refresh]: a string that
    decodes to a signed refresh token, or one that does not. *)
Inductive RawToken :=
| Signed (t : Token)
| Garbage (s : string).

(** [request.auth] of an authenticated request: the raw bytes of the access
    token and its payload. *)
Record AccessAuth := {
  auth_token : string;
  payload_exp : Z;
  payload_user_id : Z
}.

(** A request: the headers ([META]), the body ([data], string fields; the
    [refresh] field apart, kept decoded) and [request.user]. *)
Record Request := {
  META : gmap string string;
  data : gmap string string;
  data_refresh : option RawToken;
  user : option UserInfo
}.

Definition set_user (request : Request) (u : option UserInfo) : Request :=
  {| META := META request; data := data request;
     data_refresh := data_refresh request; user := u |}.

(** ** Responses and exceptions *)

(** The messages of the views, with the values formatted into them. *)
Inductive Detail :=
| RegistrationForbidden
| PasswordNotMatchRules
| UsernameExists
| LoginForbidden
| IncorrectTryAgain (times_try : Z) (block_time : Z)
| AccountLocked (block_time : Z).

(** The translated text of a message (English catalogue). *)
Definition render (d : Detail) : string :=
  match d with
  | RegistrationForbidden => "Registration forbidden"
  | PasswordNotMatchRules => "Password does not match security rules"
  | UsernameExists => "The username already exists, please try another one"
  | LoginForbidden => "Login forbidden"
  | IncorrectTryAgain times_try block_time =>
      "The username or password you entered is incorrect, please enter it again. You can also try "
      +:+ pretty times_try
      +:+ " times (The account will be temporarily locked for "
      +:+ pretty block_time +:+ " minutes)"
  | AccountLocked block_time =>
      "The account has been locked (please contact admin to unlock it or try again after "
      +:+ pretty block_time +:+ " minutes)"
  end.

(** The token pair of a successful login with its lifetime metadata. *)
Record TokenData := {
  refresh : Token;
  access : Token;
  access_expires_at : Z;
  refresh_expires_at : Z
}.

(** [ApiResponse(code=..., detail=..., data=...)]; an argument that is not
    passed is [None] ([ApiResponse()] passes none). *)
Record ApiResponse := {
  code : option Z;
  detail : option Detail;
  resp_data : option TokenData
}.

Definition ApiResponse_error (c : Z) (d : Detail) : ApiResponse :=
  {| code := Some c; detail := Some d; resp_data := None |}.
Definition ApiResponse_data (r : TokenData) : ApiResponse :=
  {| code := None; detail := None; resp_data := Some r |}.
Definition ApiResponse_empty : ApiResponse :=
  {| code := None; detail := None; resp_data := None |}.

Inductive Exn :=
| AuthChallengeError (msg : string)
| AccountLockedError (block_time : Z)
| ValidationError (field : string)
| KeyError (key : string)
| AuthenticationFailed
| TokenError (msg : string).

(** ** The world and the steps a request performs *)

Inductive Event :=
| EvChallengeGate
| EvCredentialDecode
| EvBlockCheck
| EvCredentialVerify (ok : bool)
| EvLedgerFailure (key : string)
| EvLedgerIpFailure (key : string)
| EvLedgerClean (key : string)
| EvLedgerIpClean (key : string)
| EvAuditWrite (status : bool)
| EvCreateUser (name : string)
| EvIssueTokens (uid : Z)
| EvSaveUser (uid : Z)
| EvBlacklistAccess (uid : Z)
| EvBlacklistRefresh (jti : Z).

Record World := {
  clock : Z;
  ledger_user : gmap string BlockRecord;
  ledger_ip : gmap string BlockRecord;
  temp_tokens : gmap string string;
  captchas : gmap string string;
  black_access : gmap (Z * string) BlacklistEntry;
  black_refresh : gset Z;
  next_jti : Z;
  users : list UserInfo;
  depts : list DeptInfo;
  login_log : list UserLoginLog;
  trace : list Event
}.

Inductive Outcome (A : Type) :=
| Returned (a : A)
| Raised (e : Exn).
Arguments Returned {A} a.
Arguments Raised {A} e.

(** State and exception passing: a step reads and writes the world and
    either returns or raises; what it wrote before raising stays written. *)
Definition M (A : Type) : Type := World -> Outcome A * World.

#[export] Instance M_ret : MRet M := fun A (a : A) w => (Returned a, w).
#[export] Instance M_bind : MBind M := fun A B (k : A -> M B) (m : M A) w =>
  match m w with
  | (Returned a, w') => k a w'
  | (Raised e, w') => (Raised e, w')
  end.
Definition raise {A} (e : Exn) : M A := fun w => (Raised e, w).
(** [try: ... except Exception as e:] the outcome of the body, reified. *)
Definition try_except {A} (m : M A) : M (Outcome A) :=
  fun w => match m w with (o, w') => (Returned o, w') end.
Definition get_world : M World := fun w => (Returned w, w).

(** Writes to one component of the world. *)
Definition set_trace (t : list Event) (w : World) : World :=
  {| clock := clock w; ledger_user := ledger_user w; ledger_ip := ledger_ip w;
     temp_tokens := temp_tokens w; captchas := captchas w;
     black_access := black_access w; black_refresh := black_refresh w;
     next_jti := next_jti w; users := users w; depts := depts w;
     login_log := login_log w; trace := t |}.
Definition set_ledger_user (m : gmap string BlockRecord) (w : World) : World :=
  {| clock := clock w; ledger_user := m; ledger_ip := ledger_ip w;
     temp_tokens := temp_tokens w; captchas := captchas w;
     black_access := black_access w; black_refresh := black_refresh w;
     next_jti := next_jti w; users := users w; depts := depts w;
     login_log := login_log w; trace := trace w |}.
Definition set_ledger_ip (m : gmap string BlockRecord) (w : World) : World :=
  {| clock := clock w; ledger_user := ledger_user w; ledger_ip := m;
     temp_tokens := temp_tokens w; captchas := captchas w;
     black_access := black_access w; black_refresh := black_refresh w;
     next_jti := next_jti w; users := users w; depts := depts w;
     login_log := login_log w; trace := trace w |}.
Definition set_temp_tokens (m : gmap string string) (w : World) : World :=
  {| clock := clock w; ledger_user := ledger_user w; ledger_ip := ledger_ip w;
     temp_tokens := m; captchas := captchas w;
     black_access := black_access w; black_refresh := black_refresh w;
     next_jti := next_jti w; users := users w; depts := depts w;
     login_log := login_log w; trace := trace w |}.
Definition set_captchas (m : gmap string string) (w : World) : World :=
  {| clock := clock w; ledger_user := ledger_user w; ledger_ip := ledger_ip w;
     temp_tokens := temp_tokens w; captchas := m;
     black_access := black_access w; black_refresh := black_refresh w;
     next_jti := next_jti w; users := users w; depts := depts w;
     login_log := login_log w; trace := trace w |}.
Definition set_black_access (m : gmap (Z * string) BlacklistEntry) (w : World) : World :=
  {| clock := clock w; ledger_user := ledger_user w; ledger_ip := ledger_ip w;
     temp_tokens := temp_tokens w; captchas := captchas w;
     black_access := m; black_refresh := black_refresh w;
     next_jti := next_jti w; users := users w; depts := depts w;
     login_log := login_log w; trace := trace w |}.
Definition set_black_refresh (s : gset Z) (w : World) : World :=
  {| clock := clock w; ledger_user := ledger_user w; ledger_ip := ledger_ip w;
     temp_tokens := temp_tokens w; captchas := captchas w;
     black_access := black_access w; black_refresh := s;
     next_jti := next_jti w; users := users w; depts := depts w;
     login_log := login_log w; trace := trace w |}.
Definition set_next_jti (n : Z) (w : World) : World :=
  {| clock := clock w; ledger_user := ledger_user w; ledger_ip := ledger_ip w;
     temp_tokens := temp_tokens w; captchas := captchas w;
     black_access := black_access w; black_refresh := black_refresh w;
     next_jti := n; users := users w; depts := depts w;
     login_log := login_log w; trace := trace w |}.
Definition set_users (l : list UserInfo) (w : World) : World :=
  {| clock := clock w; ledger_user := ledger_user w; ledger_ip := ledger_ip w;
     temp_tokens := temp_tokens w; captchas := captchas w;
     black_access := black_access w; black_refresh := black_refresh w;
     next_jti := next_jti w; users := l; depts := depts w;
     login_log := login_log w; trace := trace w |}.
Definition set_login_log (l : list UserLoginLog) (w : World) : World :=
  {| clock := clock w; ledger_user := ledger_user w; ledger_ip := ledger_ip w;
     temp_tokens := temp_tokens w; captchas := captchas w;
     black_access := black_access w; black_refresh := black_refresh w;
     next_jti := next_jti w; users := users w; depts := depts w;
     login_log := l; trace := trace w |}.

Definition modify (f : World -> World) : M unit := fun w => (Returned tt, f w).
Definition emit (e : Event) : M unit := modify (fun w => set_trace (trace w ++ [e]) w).

(** ** Collaborators

    Libraries outside the repository ([user_agents], [hashlib]) and helpers
    of the repository whose bodies the views do not fix and the
    specification leaves open: they are parameters of the development. *)
Class Collaborators := {
  (* [str(parse(ua))] of [user_agents]: total on strings *)
  parse_str : string -> string;
  (* [common.utils.request]: the client address, the browser and the
     operating system of a request, read from its headers *)
  get_request_ip : gmap string string -> string;
  get_browser : gmap string string -> string;
  get_os : gmap string string -> string;
  (* [system.utils.view.get_request_ident]: the fingerprint of a request,
     derived from its headers *)
  get_request_ident : gmap string string -> string;
  (* [hashlib.md5(b).hexdigest()] *)
  md5_hexdigest : string -> string;
  (* [system.utils.security.check_password_rules] *)
  check_password_rules : string -> bool;
  (* decryption of an encrypted payload under the key of a temp token *)
  decrypt : string -> string -> option (string * string);
  (* which address and which agent strings the login-log serializer
     accepts *)
  ip_parseable : string -> bool;
  agent_parseable : string -> bool
}.

Section LoginGuard.
Context `{Collaborators}.
Variable settings : Settings.

(** *** Login audit log *)

(** Modelled from the spec: [UserLoginLogSerializer.is_valid] of
    system/utils/serializer.py is not among the sources; section 4.5 has it
    raise a validation error when the address or the user agent of the
    record is unparseable. *)
Definition UserLoginLogSerializer_is_valid (row : UserLoginLog) : M unit :=
  if negb (ip_parseable (log_ipaddress row)) then raise (ValidationError "ipaddress")
  else if negb (agent_parseable (log_agent row)) then raise (ValidationError "agent")
  else mret tt.

(** [serializer.save()]: one row appended to the login log. *)
Definition UserLoginLogSerializer_save (row : UserLoginLog) : M unit :=
  modify (fun w => set_login_log (login_log w ++ [row]) w);;
  emit (EvAuditWrite (log_status row)).

(** auth.py, lines 32-43.  The dictionary is built field by field, so the
    subscript [request.META['HTTP_USER_AGENT']] raises [KeyError] before
    the serializer is reached. *)
Definition save_login_log (request : Request) (login_type : LoginTypeChoices)
    (status : bool) : M unit :=
  let ipaddress := get_request_ip (META request) in
  let browser := get_browser (META request) in
  let system := get_os (META request) in
  match META request !! "HTTP_USER_AGENT" with
  | None => raise (KeyError "HTTP_USER_AGENT")
  | Some ua =>
      let row := {| log_creator := pk <$> user request;
                    log_ipaddress := ipaddress;
                    log_browser := browser;
                    log_system := system;
                    log_status := status;
                    log_agent := parse_str ua;
                    log_login_type := login_type |} in
      UserLoginLogSerializer_is_valid row;;
      UserLoginLogSerializer_save row
  end.

(** *** Challenge gate and credential decoder *)

(** The key a captcha is stored under: the submitted temp token, or the
    fingerprint of the request when none is submitted. *)
Definition captcha_owner (request : Request) : string :=
  default (get_request_ident (META request)) (data request !! "token").

(** Modelled from the spec: [check_token_and_captcha] of
    system/utils/view.py is not among the sources; section 4.1 gives its
    contract.  A temp token must have been issued to the fingerprint of the
    request, a captcha code must equal the stored one, and what was
    submitted is consumed whether the check succeeds or fails. *)
Definition check_token_and_captcha (request : Request)
    (token_enable captcha_enable : bool) : M (string * option string) :=
  emit EvChallengeGate;;
  let client_id := get_request_ident (META request) in
  token ← (if token_enable then
             w ← get_world;
             match data request !! "token" with
             | None => raise (AuthChallengeError "invalid or expired token")
             | Some t =>
                 match temp_tokens w !! t with
                 | None => raise (AuthChallengeError "invalid or expired token")
                 | Some bound =>
                     modify (fun w => set_temp_tokens (delete t (temp_tokens w)) w);;
                     if String.eqb bound client_id then mret (Some t)
                     else raise (AuthChallengeError "invalid or expired token")
                 end
             end
           else mret None);
  (if captcha_enable then
     w ← get_world;
     let owner := captcha_owner request in
     match captchas w !! owner with
     | None => raise (AuthChallengeError "invalid captcha")
     | Some expected =>
         modify (fun w => set_captchas (delete owner (captchas w)) w);;
         match data request !! "captcha_code" with
         | Some c => if String.eqb c expected then mret tt
                     else raise (AuthChallengeError "invalid captcha")
         | None => raise (AuthChallengeError "invalid captcha")
         end
     end
   else mret tt);;
  mret (client_id, token).

(** Modelled from the spec: [get_username_password] of
    system/utils/view.py is not among the sources; section 4.2 gives its
    contract.  Decryption fails closed, and an empty or missing username or
    password is a validation error. *)
Definition get_username_password (encrypted : bool) (request : Request)
    (token : option string) : M (string * string) :=
  emit EvCredentialDecode;;
  '(u, p) ← (if encrypted then
               match data request !! "payload", token with
               | Some blob, Some t =>
                   match decrypt t blob with
                   | Some up => mret up
                   | None => raise (AuthChallengeError "decryption failed")
                   end
               | _, _ => raise (AuthChallengeError "decryption failed")
               end
             else
               match data request !! "username", data request !! "password" with
               | Some u, Some p => mret (u, p)
               | None, _ => raise (ValidationError "username")
               | _, None => raise (ValidationError "password")
               end);
  if String.eqb u "" then raise (ValidationError "username")
  else if String.eqb p "" then raise (ValidationError "password")
  else mret (u, p).

(** *** Block ledger *)

(** Modelled from the spec: the block ledger of system/utils/security.py
    is not among the sources.  Section 3 has a record expire at the cache
    level: a read at time [t] sees the record of a key only before its
    expiry. *)
Definition live_record (t : Z) (m : gmap string BlockRecord) (key : string)
    : option BlockRecord :=
  match m !! key with
  | Some r => if t <? expires_at r then Some r else None
  | None => None
  end.

Definition live_count (t : Z) (m : gmap string BlockRecord) (key : string) : Z :=
  from_option failed_count 0 (live_record t m key).

(** Modelled from the spec: a live block (sections 3 and 4.3) is a record
    that is there and whose [blocked_until] lies ahead. *)
Definition live_block (t : Z) (m : gmap string BlockRecord) (key : string) : bool :=
  match live_record t m key with
  | Some r => match blocked_until r with
              | Some until => t <? until
              | None => false
              end
  | None => false
  end.

(** Modelled from the spec: one failure recorded against [key] (section
    4.3, [on_failure]).  The count goes up by one, the record is rewritten
    with a fresh time to live of [minutes], and a count that has reached
    [threshold] sets [blocked_until] that far ahead. *)
Definition record_failure (t threshold minutes : Z) (m : gmap string BlockRecord)
    (key : string) : gmap string BlockRecord :=
  let count := live_count t m key + 1 in
  let until := t + minutes * 60 in
  <[key := {| failed_count := count;
              blocked_until := if threshold <=? count then Some until
                               else live_record t m key ≫= blocked_until;
              expires_at := until |}]> m.

(** Modelled from the spec: [check_is_block] of system/utils/view.py is not
    among the sources; section 4.3 ([check_is_blocked]) has it fail with an
    account-locked error when the username or the address has a live
    block.  The error carries the lock message of the view. *)
Definition check_is_block (username ipaddr : string) : M unit :=
  emit EvBlockCheck;;
  w ← get_world;
  if live_block (clock w) (ledger_user w) username
     || live_block (clock w) (ledger_ip w) ipaddr
  then raise (AccountLockedError (SECURITY_LOGIN_LIMIT_TIME settings))
  else mret tt.

(** [LoginBlockUtil(username, ipaddr)] and [LoginIpBlockUtil(ipaddr)]: the
    objects hold the keys their methods work on. *)
Record LoginBlockUtil := { block_username : string; block_ipaddr : string }.
Record LoginIpBlockUtil := { block_ip : string }.

(** Modelled from the spec: the methods of [LoginBlockUtil] and
    [LoginIpBlockUtil] of system/utils/security.py are not among the
    sources; section 4.3 gives [on_failure] (here its username half,
    [incr_failed_count], and its address half, [set_block_if_need]),
    [on_success] ([clean_failed_count] and [clean_block_if_need]) and
    [remaining_attempts] ([get_remainder_times]). *)
Definition incr_failed_count (util : LoginBlockUtil) : M unit :=
  modify (fun w =>
    set_ledger_user
      (record_failure (clock w) (SECURITY_LOGIN_LIMIT_COUNT settings)
         (SECURITY_LOGIN_LIMIT_TIME settings) (ledger_user w) (block_username util)) w);;
  emit (EvLedgerFailure (block_username util)).

Definition set_block_if_need (util : LoginIpBlockUtil) : M unit :=
  modify (fun w =>
    set_ledger_ip
      (record_failure (clock w) (SECURITY_LOGIN_IP_LIMIT_COUNT settings)
         (SECURITY_LOGIN_IP_LIMIT_TIME settings) (ledger_ip w) (block_ip util)) w);;
  emit (EvLedgerIpFailure (block_ip util)).

Definition get_remainder_times (util : LoginBlockUtil) : M Z :=
  w ← get_world;
  mret (Z.max 0 (SECURITY_LOGIN_LIMIT_COUNT settings
                 - live_count (clock w) (ledger_user w) (block_username util))).

Definition clean_failed_count (util : LoginBlockUtil) : M unit :=
  modify (fun w => set_ledger_user (delete (block_username util) (ledger_user w)) w);;
  emit (EvLedgerClean (block_username util)).

Definition clean_block_if_need (util : LoginIpBlockUtil) : M unit :=
  modify (fun w => set_ledger_ip (delete (block_ip util) (ledger_ip w)) w);;
  emit (EvLedgerIpClean (block_ip util)).

(** *** Token lifecycle *)

(** [auth.authenticate(username=..., password=...)]: the active user with
    these credentials, if there is one. *)
Definition authenticate (name pw : string) : M (option UserInfo) :=
  w ← get_world;
  mret (List.find (fun u => String.eqb (username u) name
                            && String.eqb (password u) pw && is_active u)
                  (users w)).

(** [RefreshToken.for_user(user)] with its [access_token]. *)
Definition RefreshToken_for_user (u : UserInfo) : M (Token * Token) :=
  w ← get_world;
  let r := {| token_type := RefreshType; token_user_id := pk u;
              token_exp := clock w + REFRESH_TOKEN_LIFETIME settings;
              token_jti := next_jti w |} in
  let a := {| token_type := AccessType; token_user_id := pk u;
              token_exp := clock w + ACCESS_TOKEN_LIFETIME settings;
              token_jti := next_jti w + 1 |} in
  modify (set_next_jti (next_jti w + 2));;
  emit (EvIssueTokens (pk u));;
  mret (r, a).

(** [self.get_serializer(data=...).is_valid(raise_exception=True)] of
    [TokenObtainPairView]: credential verification, then the token pair of
    the user; [serializer.user] and [serializer.validated_data]. *)
Definition TokenObtainPairSerializer_is_valid (name pw : string)
    : M (UserInfo * (Token * Token)) :=
  found ← authenticate name pw;
  match found with
  | None => emit (EvCredentialVerify false);; raise AuthenticationFailed
  | Some u =>
      emit (EvCredentialVerify true);;
      pair ← RefreshToken_for_user u;
      mret (u, pair)
  end.

(** Modelled from the spec: [get_token_lifetime] of system/utils/view.py is
    not among the sources; section 4.4 ([issue]) has the expiry of the two
    tokens computed from the static configuration, the same for every
    user. *)
Definition get_token_lifetime (u : UserInfo) : M (Z * Z) :=
  w ← get_world;
  mret (clock w + ACCESS_TOKEN_LIFETIME settings,
        clock w + REFRESH_TOKEN_LIFETIME settings).

(** [RefreshToken(raw)]: decoding and verification of a submitted refresh
    token; a string that does not decode, a token of the wrong type, an
    expired one and a blacklisted one all raise [TokenError]. *)
Definition RefreshToken (raw : RawToken) : M Token :=
  w ← get_world;
  match raw with
  | Garbage _ => raise (TokenError "Token is invalid or expired")
  | Signed t =>
      match token_type t with
      | AccessType => raise (TokenError "Token has wrong type")
      | RefreshType =>
          if token_exp t <=? clock w then raise (TokenError "Token is invalid or expired")
          else if bool_decide (token_jti t ∈ black_refresh w)
               then raise (TokenError "Token is blacklisted")
               else mret t
      end
  end.

(** [token.blacklist()] *)
Definition blacklist (t : Token) : M unit :=
  modify (fun w => set_black_refresh ({[token_jti t]} ∪ black_refresh w) w);;
  emit (EvBlacklistRefresh (token_jti t)).

(** Modelled from the spec: [BlackAccessTokenCache] of
    common/cache/storage.py is not among the sources; sections 3 and 4.4
    ([revoke_access]) have an entry keyed by the user and the fingerprint
    of the token, holding a sentinel for the given time to live. *)
Definition set_storage_cache (key : Z * string) (value timeout : Z) : M unit :=
  modify (fun w =>
    set_black_access
      (<[key := {| entry_value := value; entry_ttl := timeout;
                   entry_expiry := clock w + timeout |}]> (black_access w)) w);;
  emit (EvBlacklistAccess (fst key)).

(** *** The relational store *)

Definition has_username (name : string) (u : UserInfo) : bool :=
  String.eqb (username u) name.

(** [UserInfo.objects.create_user(...)]: a fresh primary key, an active
    account, no login yet. *)
Definition create_user (name pw first nick : string) : M UserInfo :=
  w ← get_world;
  let u := {| pk := 1 + foldr Z.max 0 (pk <$> users w);
              username := name; password := pw;
              first_name := first; nickname := nick;
              is_active := true; last_login := None;
              dept := None; dept_belong := None |} in
  modify (set_users (users w ++ [u]));;
  emit (EvCreateUser name);;
  mret u.

Definition has_field (f : string) (update_fields : list string) : bool :=
  bool_decide (f ∈ update_fields).

(** [user.save(update_fields=...)]: the listed columns of the row of [u]
    are overwritten with the values [u] holds. *)
Definition save_row (u : UserInfo) (update_fields : list string) (row : UserInfo)
    : UserInfo :=
  if pk row =? pk u then
    {| pk := pk row; username := username row; password := password row;
       first_name := first_name row; nickname := nickname row;
       is_active := is_active row;
       last_login := if has_field "last_login" update_fields
                     then last_login u else last_login row;
       dept := if has_field "dept" update_fields then dept u else dept row;
       dept_belong := if has_field "dept_belong" update_fields
                      then dept_belong u else dept_belong row |}
  else row.

Definition save (u : UserInfo) (update_fields : list string) : M unit :=
  modify (fun w => set_users (save_row u update_fields <$> users w) w);;
  emit (EvSaveUser (pk u)).

Definition with_dept (u : UserInfo) (d : DeptInfo) : UserInfo :=
  {| pk := pk u; username := username u; password := password u;
     first_name := first_name u; nickname := nickname u;
     is_active := is_active u; last_login := last_login u;
     dept := Some (dept_code d); dept_belong := Some (dept_code d) |}.

Definition with_last_login (u : UserInfo) (t : Z) : UserInfo :=
  {| pk := pk u; username := username u; password := password u;
     first_name := first_name u; nickname := nickname u;
     is_active := is_active u; last_login := Some t;
     dept := dept u; dept_belong := dept_belong u |}.

(** *** The views *)

(** [RegisterView.post], auth.py lines 71-109. *)
Definition RegisterView_post (request : Request) : M ApiResponse :=
  if negb (SECURITY_REGISTER_ACCESS_ENABLED settings) then
    mret (ApiResponse_error 1001 RegistrationForbidden)
  else
    '(client_id, token) ← check_token_and_captcha request
        (SECURITY_REGISTER_TEMP_TOKEN_ENABLED settings)
        (SECURITY_REGISTER_CAPTCHA_ENABLED settings);
    let channel := default "default" (data request !! "channel") in
    '(username, password) ← get_username_password
        (SECURITY_REGISTER_ENCRYPTED_ENABLED settings) request token;
    if negb (check_password_rules password) then
      mret (ApiResponse_error 1001 PasswordNotMatchRules)
    else
      w ← get_world;
      if negb (length (List.filter (has_username username) (users w)) =? 0)%nat then
        mret (ApiResponse_error 1002 UsernameExists)
      else
        found ← authenticate username password;
        '(user, update_fields) ←
          match found with
          | Some u => mret (u, ["last_login"])
          | None =>
              u ← create_user username password username username;
              if negb (String.eqb channel "") then
                w ← get_world;
                let bindable d := dept_is_active d && auto_bind d in
                let dept :=
                  match List.find (fun d => bindable d && String.eqb (dept_code d) channel)
                                  (depts w) with
                  | Some d => Some d
                  | None => List.find bindable (depts w)
                  end in
                match dept with
                | Some d => mret (with_dept u d, ["last_login"; "dept_belong"; "dept"])
                | None => mret (u, ["last_login"])
                end
              else mret (u, ["last_login"])
          end;
        '(refresh, access) ← RefreshToken_for_user user;
        w ← get_world;
        let user := with_last_login user (clock w) in
        save user update_fields;;
        '(access_exp, refresh_exp) ← get_token_lifetime user;
        let result := {| refresh := refresh; access := access;
                         access_expires_at := access_exp;
                         refresh_expires_at := refresh_exp |} in
        let request := set_user request (Some user) in
        save_login_log request USERNAME true;;
        mret (ApiResponse_data result).

(** [LoginView.post], auth.py lines 125-169. *)
Definition LoginView_post (request : Request) : M ApiResponse :=
  if negb (SECURITY_LOGIN_ACCESS_ENABLED settings) then
    mret (ApiResponse_error 1001 LoginForbidden)
  else
    let ipaddr := get_request_ip (META request) in
    '(client_id, token) ← check_token_and_captcha request
        (SECURITY_LOGIN_TEMP_TOKEN_ENABLED settings)
        (SECURITY_LOGIN_CAPTCHA_ENABLED settings);
    '(username, password) ← get_username_password
        (SECURITY_LOGIN_ENCRYPTED_ENABLED settings) request token;
    check_is_block username ipaddr;;
    let login_block_util := {| block_username := username; block_ipaddr := ipaddr |} in
    let login_ip_block := {| block_ip := ipaddr |} in
    outcome ← try_except (TokenObtainPairSerializer_is_valid username password);
    match outcome with
    | Raised e =>
        w ← get_world;
        let request := set_user request
          (data request !! "username" ≫= fun name =>
             List.find (has_username name) (users w)) in
        save_login_log request USERNAME false;;
        incr_failed_count login_block_util;;
        set_block_if_need login_ip_block;;
        times_remainder ← get_remainder_times login_block_util;
        let detail :=
          if 0 <? times_remainder
          then IncorrectTryAgain times_remainder (SECURITY_LOGIN_LIMIT_TIME settings)
          else AccountLocked (SECURITY_LOGIN_LIMIT_TIME settings) in
        mret (ApiResponse_error 9999 detail)
    | Returned (serializer_user, (refresh, access)) =>
        '(access_exp, refresh_exp) ← get_token_lifetime serializer_user;
        let data := {| refresh := refresh; access := access;
                       access_expires_at := access_exp;
                       refresh_expires_at := refresh_exp |} in
        let request := set_user request (Some serializer_user) in
        save_login_log request USERNAME true;;
        clean_failed_count login_block_util;;
        clean_block_if_need login_ip_block;;
        mret (ApiResponse_data data)
    end.

(** Whether [request.data.get('refresh')] is truthy: a field that is
    absent or the empty string is not. *)
Definition refresh_field (request : Request) : option RawToken :=
  match data_refresh request with
  | Some (Garbage "") => None
  | other => other
  end.

(** [LogoutView.post], auth.py lines 194-209.  The view is routed with the
    authenticated urls and keeps the default permission classes, so
    [request.auth] is the validated access token of the caller. *)
Definition LogoutView_post (request : Request) (auth : AccessAuth) : M ApiResponse :=
  let exp := payload_exp auth in
  let user_id := payload_user_id auth in
  w ← get_world;
  let timeout := exp - clock w in
  set_storage_cache (user_id, md5_hexdigest (auth_token auth)) 1 timeout;;
  match refresh_field request with
  | Some raw =>
      try_except (token ← RefreshToken raw; blacklist token);;
      mret ApiResponse_empty
  | None => mret ApiResponse_empty
  end.

End LoginGuard.

(** ** Notions the statements below are written with *)

Section Notions.
Context `{Collaborators}.
Variable settings : Settings.

(** The events a request added to the trace. *)
Definition events_of (before after : World) (delta : list Event) : Prop :=
  trace after = trace before ++ delta.

(** What the challenge gate and the decoder leave untouched: everything but
    the challenge stores and the trace. *)
Definition same_store (w w' : World) : Prop :=
  clock w' = clock w /\ ledger_user w' = ledger_user w /\ ledger_ip w' = ledger_ip w
  /\ black_access w' = black_access w /\ black_refresh w' = black_refresh w
  /\ next_jti w' = next_jti w /\ users w' = users w /\ depts w' = depts w
  /\ login_log w' = login_log w.

(** A request passes the challenge gate and the credential decoder, which
    yield the pair [(u, p)] and leave the world [w2]. *)
Definition passes_gates (token_enable captcha_enable encrypted : bool)
    (request : Request) (w : World) (u p : string) (w2 : World) : Prop :=
  exists client_id token w1,
    check_token_and_captcha request token_enable captcha_enable w
      = (Returned (client_id, token), w1)
    /\ get_username_password encrypted request token w1 = (Returned (u, p), w2).

Definition passes_login_gates := 
  passes_gates (SECURITY_LOGIN_TEMP_TOKEN_ENABLED settings)
    (SECURITY_LOGIN_CAPTCHA_ENABLED settings) (SECURITY_LOGIN_ENCRYPTED_ENABLED settings).

Definition passes_register_gates := 
  passes_gates (SECURITY_REGISTER_TEMP_TOKEN_ENABLED settings)
    (SECURITY_REGISTER_CAPTCHA_ENABLED settings)
    (SECURITY_REGISTER_ENCRYPTED_ENABLED settings).

(** The username or the address has a live block. *)
Definition blocked (w : World) (u ipaddr : string) : bool :=
  live_block (clock w) (ledger_user w) u || live_block (clock w) (ledger_ip w) ipaddr.

(** The active user the credentials [(u, p)] verify as, if any. *)
Definition verified_user (w : World) (u p : string) : option UserInfo :=
  List.find (fun x => String.eqb (username x) u && String.eqb (password x) p
                      && is_active x) (users w).

(** The token pair [RefreshToken.for_user] issues to [u] in the world [w],
    with the lifetime metadata of the response. *)
Definition issued_pair (w : World) (u : UserInfo) : Token * Token :=
  ({| token_type := RefreshType; token_user_id := pk u;
      token_exp := clock w + REFRESH_TOKEN_LIFETIME settings;
      token_jti := next_jti w |},
   {| token_type := AccessType; token_user_id := pk u;
      token_exp := clock w + ACCESS_TOKEN_LIFETIME settings;
      token_jti := next_jti w + 1 |}).

Definition issued_data (w : World) (u : UserInfo) : TokenData :=
  {| refresh := fst (issued_pair w u); access := snd (issued_pair w u);
     access_expires_at := clock w + ACCESS_TOKEN_LIFETIME settings;
     refresh_expires_at := clock w + REFRESH_TOKEN_LIFETIME settings |}.

(** The duplicate-username check of [RegisterView.post]:
    [UserInfo.objects.filter(username=username).count()] is not zero. *)
Definition username_taken (w : World) (u : string) : bool :=
  negb (length (List.filter (has_username u) (users w)) =? 0)%nat.

(** The audit context of a request is unusable: the User-Agent header is
    missing, or the address or the agent is unparseable. *)
Definition bad_audit_context (request : Request) : Prop :=
  META request !! "HTTP_USER_AGENT" = None
  \/ ip_parseable (get_request_ip (META request)) = false
  \/ exists ua, META request !! "HTTP_USER_AGENT" = Some ua
                /\ agent_parseable (parse_str ua) = false.

(** The error [save_login_log] raises on a request, [None] when the record
    is written. *)
Definition audit_error (request : Request) : option Exn :=
  match META request !! "HTTP_USER_AGENT" with
  | None => Some (KeyError "HTTP_USER_AGENT")
  | Some ua =>
      if negb (ip_parseable (get_request_ip (META request))) then Some (ValidationError "ipaddress")
      else if negb (agent_parseable (parse_str ua)) then Some (ValidationError "agent")
      else None
  end.

(** The row [save_login_log] writes for a request. *)
Definition audit_row (request : Request) (login_type : LoginTypeChoices)
    (status : bool) : UserLoginLog :=
  {| log_creator := pk <$> user request;
     log_ipaddress := get_request_ip (META request);
     log_browser := get_browser (META request);
     log_system := get_os (META request);
     log_status := status;
     log_agent := parse_str (default "" (META request !! "HTTP_USER_AGENT"));
     log_login_type := login_type |}.

Definition is_ledger_update (e : Event) : bool :=
  match e with
  | EvLedgerFailure _ | EvLedgerIpFailure _ | EvLedgerClean _ | EvLedgerIpClean _ => true
  | _ => false
  end.

Definition is_audit_write (e : Event) : bool :=
  match e with
  | EvAuditWrite _ => true
  | _ => false
  end.

Definition is_blacklist_access (e : Event) : bool :=
  match e with
  | EvBlacklistAccess _ => true
  | _ => false
  end.

(** The order section 2 of the specification gives: within the events of
    a request, a ledger update comes before any write of the audit
    record. *)
Definition ledger_before_audit (t : list Event) : Prop :=
  forall i j e e',
    t !! i = Some e -> is_audit_write e = true ->
    t !! j = Some e' -> is_ledger_update e' = true -> (j < i)%nat.

(** The opposite order: every ledger update has a write of the audit
    record before it, and none after it. *)
Definition audit_before_ledger (t : list Event) : Prop :=
  (forall j e', t !! j = Some e' -> is_ledger_update e' = true ->
     exists i e, (i < j)%nat /\ t !! i = Some e /\ is_audit_write e = true)
  /\ (forall i j e e',
        t !! i = Some e -> is_audit_write e = true ->
        t !! j = Some e' -> is_ledger_update e' = true -> (i < j)%nat).

(** A decision procedure for [audit_before_ledger] on the traces the views
    produce: no ledger update up to the first audit write, no audit write
    after it. *)
Fixpoint audit_then_ledger (t : list Event) : bool :=
  match t with
  | [] => true
  | e :: t' =>
      if is_ledger_update e then false
      else if is_audit_write e then forallb (fun x => negb (is_audit_write x)) t'
      else audit_then_ledger t'
  end.

(** [s] occurs in [t] as a substring. *)
Definition embeds (s t : string) : Prop :=
  exists before after, t = before +:+ s +:+ after.

End Notions.

(** ** A concrete deployment, for the examples *)

Module Fixture.

Definition header (name : string) (headers : gmap string string) : string :=
  default "" (headers !! name).

Definition collaborators : Collaborators :=
  {| parse_str := fun ua => ua;
     get_request_ip := header "REMOTE_ADDR";
     get_browser := header "HTTP_USER_AGENT";
     get_os := header "HTTP_SEC_CH_UA_PLATFORM";
     get_request_ident := fun r => header "REMOTE_ADDR" r +:+ "|" +:+ header "HTTP_USER_AGENT" r;
     md5_hexdigest := fun b => "md5:" +:+ b;
     check_password_rules := fun pw => (8 <=? String.length pw)%nat;
     decrypt := fun _ _ => None;
     ip_parseable := fun s => negb (String.eqb s "");
     agent_parseable := fun s => negb (String.eqb s "") |}.

(** Threshold 5 and a block of 30 minutes, as in the scenario of section 8
    of the specification. *)
Definition settings (register_on login_on captcha_on : bool) : Settings :=
  {| SECURITY_REGISTER_ACCESS_ENABLED := register_on;
     SECURITY_REGISTER_TEMP_TOKEN_ENABLED := false;
     SECURITY_REGISTER_CAPTCHA_ENABLED := captcha_on;
     SECURITY_REGISTER_ENCRYPTED_ENABLED := false;
     SECURITY_LOGIN_ACCESS_ENABLED := login_on;
     SECURITY_LOGIN_TEMP_TOKEN_ENABLED := false;
     SECURITY_LOGIN_CAPTCHA_ENABLED := captcha_on;
     SECURITY_LOGIN_ENCRYPTED_ENABLED := false;
     SECURITY_LOGIN_LIMIT_TIME := 30;
     SECURITY_LOGIN_LIMIT_COUNT := 5;
     SECURITY_LOGIN_IP_LIMIT_COUNT := 10;
     SECURITY_LOGIN_IP_LIMIT_TIME := 60;
     ACCESS_TOKEN_LIFETIME := 3600;
     REFRESH_TOKEN_LIFETIME := 86400 |}.

Definition on : Settings := settings true true false.
Definition login_off : Settings := settings true false false.
Definition with_captcha : Settings := settings true true true.

Definition alice : UserInfo :=
  {| pk := 1; username := "alice"; password := "correct horse";
     first_name := "alice"; nickname := "alice"; is_active := true;
     last_login := None; dept := None; dept_belong := None |}.

Definition world (t : Z) (by_user by_ip : gmap string BlockRecord) : World :=
  {| clock := t; ledger_user := by_user; ledger_ip := by_ip;
     temp_tokens := ∅; captchas := ∅; black_access := ∅; black_refresh := ∅;
     next_jti := 100; users := [alice];
     depts := [{| dept_code := "default"; dept_is_active := true; auto_bind := true |}];
     login_log := []; trace := [] |}.

(** Nothing recorded yet, at time 1000. *)
Definition fresh : World := world 1000 ∅ ∅.

(** [n] failures recorded against alice and the address at time 1000, the
    records living until 2800. *)
Definition failures (n : Z) : BlockRecord :=
  {| failed_count := n; blocked_until := None; expires_at := 2800 |}.
Definition after_failures (n : Z) : World :=
  world 1000 {["alice" := failures n]} {["1.2.3.4" := failures n]}.

(** Alice blocked until 2800; the address is clean. *)
Definition alice_blocked : World :=
  world 1000 {["alice" := {| failed_count := 5; blocked_until := Some 2800;
                             expires_at := 2800 |}]} ∅.

Definition request (headers body : list (string * string)) : Request :=
  {| META := list_to_map headers; data := list_to_map body;
     data_refresh := None; user := None |}.

Definition browser_headers : list (string * string) :=
  [("REMOTE_ADDR", "1.2.3.4"); ("HTTP_USER_AGENT", "Mozilla/5.0")].
(** A client that sends no User-Agent header. *)
Definition bare_headers : list (string * string) := [("REMOTE_ADDR", "1.2.3.4")].

Definition login (headers : list (string * string)) (pw : string) : Request :=
  request headers [("username", "alice"); ("password", pw)].

Definition signup (headers : list (string * string)) (name pw : string) : Request :=
  request headers [("username", name); ("password", pw)].

Definition access_of_alice : AccessAuth :=
  {| auth_token := "eyJ.alice.sig"; payload_exp := 4600; payload_user_id := 1 |}.

Definition logout (raw : option RawToken) : Request :=
  {| META := list_to_map browser_headers; data := ∅; data_refresh := raw; user := Some alice |}.

End Fixture.

(** ** The other views of [system/views/auth.py] *)

(** The data of [RegisterView.get]; the password rules are what
    [get_password_check_rules] returns, whatever their shape. *)
Record RegisterConfig (Rules : Type) := {
  register_access : bool;
  register_captcha : bool;
  register_token : bool;
  register_encrypted : bool;
  register_password : Rules
}.
Arguments register_access {Rules} _.
Arguments register_captcha {Rules} _.
Arguments register_token {Rules} _.
Arguments register_encrypted {Rules} _.
Arguments register_password {Rules} _.

(** The data of [LoginView.get]. *)
Record LoginConfig := {
  login_access : bool;
  login_captcha : bool;
  login_token : bool;
  login_encrypted : bool;
  login_lifetime : Z;
  login_reset : bool
}.

(** The data of [RefreshTokenView.post]: the new access token and the
    lifetime metadata. *)
Record RefreshData := {
  new_access : Token;
  new_access_expires_at : Z;
  new_refresh_expires_at : Z
}.

(** The clock moves on between two requests. *)
Definition set_clock (t : Z) (w : World) : World :=
  {| clock := t; ledger_user := ledger_user w; ledger_ip := ledger_ip w;
     temp_tokens := temp_tokens w; captchas := captchas w;
     black_access := black_access w; black_refresh := black_refresh w;
     next_jti := next_jti w; users := users w; depts := depts w;
     login_log := login_log w; trace := trace w |}.

Section OtherViews.
Context `{Collaborators}.
Variable settings : Settings.

(** [RegisterView.get], auth.py lines 111-119.  [get_password_check_rules]
    of system/utils/security.py is a parameter. *)
Definition RegisterView_get {Rules : Type}
    (get_password_check_rules : option UserInfo -> Rules) (request : Request)
    : RegisterConfig Rules :=
  {| register_access := SECURITY_REGISTER_ACCESS_ENABLED settings;
     register_captcha := SECURITY_REGISTER_CAPTCHA_ENABLED settings;
     register_token := SECURITY_REGISTER_TEMP_TOKEN_ENABLED settings;
     register_encrypted := SECURITY_REGISTER_ENCRYPTED_ENABLED settings;
     register_password := get_password_check_rules (user request) |}.

(** [LoginView.get], auth.py lines 171-180.  [.days] of the refresh
    lifetime, a [timedelta] kept here in seconds, is the quotient by 86400
    rounded down; [SECURITY_RESET_PASSWORD_ACCESS_ENABLED] is a setting the
    other views do not read. *)
Definition LoginView_get (SECURITY_RESET_PASSWORD_ACCESS_ENABLED : bool) : LoginConfig :=
  {| login_access := SECURITY_LOGIN_ACCESS_ENABLED settings;
     login_captcha := SECURITY_LOGIN_CAPTCHA_ENABLED settings;
     login_token := SECURITY_LOGIN_TEMP_TOKEN_ENABLED settings;
     login_encrypted := SECURITY_LOGIN_ENCRYPTED_ENABLED settings;
     login_lifetime := REFRESH_TOKEN_LIFETIME settings / 86400;
     login_reset := SECURITY_RESET_PASSWORD_ACCESS_ENABLED |}.

(** [super().post(request)] of [RefreshTokenView]: [TokenRefreshView] of
    [rest_framework_simplejwt] with its default settings (no rotation).
    The [refresh] field is required and may not be blank; the serializer
    decodes and verifies it with [RefreshToken] and a [TokenError] becomes
    [InvalidToken], a subclass of [AuthenticationFailed]; the data is the
    access token derived from the refresh token. *)
Definition TokenRefreshView_post (request : Request) : M Token :=
  match refresh_field request with
  | None => raise (ValidationError "refresh")
  | Some raw =>
      outcome ← try_except (RefreshToken raw);
      match outcome with
      | Raised _ => raise AuthenticationFailed
      | Returned refresh =>
          w ← get_world;
          modify (set_next_jti (next_jti w + 1));;
          mret {| token_type := AccessType;
                  token_user_id := token_user_id refresh;
                  token_exp := clock w + ACCESS_TOKEN_LIFETIME settings;
                  token_jti := next_jti w |}
      end
  end.

(** [RefreshTokenView.post], auth.py lines 185-188; the view returns
    [ApiResponse(data=data)], of which the data is kept. *)
Definition RefreshTokenView_post (request : Request) (request_user : UserInfo)
    : M RefreshData :=
  access ← TokenRefreshView_post request;
  '(access_exp, refresh_exp) ← get_token_lifetime settings request_user;
  mret {| new_access := access;
          new_access_expires_at := access_exp;
          new_refresh_expires_at := refresh_exp |}.

End OtherViews.

(** ** The worker signals of [common/signal_handlers.py] *)

(** One entry of the cache: a value and the time it is kept until. *)
Record CacheEntry := {
  cached : Z;
  cached_until : Z
}.

(** [django_celery_beat.models.PeriodicTask], the columns the handlers
    read. *)
Record PeriodicTask := {
  periodic_name : string;
  periodic_task : string;
  periodic_enabled : bool
}.

(** What the handlers act on: the clock, the cache, the table of periodic
    tasks in the order of their primary keys, the two task registries
    ([get_after_app_ready_tasks] and [get_after_app_shutdown_clean_tasks]
    of common/celery/decorator.py return them), the tasks sent to the queue
    with [delay()] and the lines of the debug log. *)
Record Worker := {
  worker_clock : Z;
  worker_cache : gmap string CacheEntry;
  PeriodicTask_objects : list PeriodicTask;
  after_app_ready_tasks : list string;
  after_app_shutdown_clean_tasks : list string;
  delayed : list string;
  debug_log : list string
}.

(** [sep.join(l)] *)
Fixpoint join (sep : string) (l : list string) : string :=
  match l with
  | [] => ""
  | [s] => s
  | s :: rest => s +:+ sep +:+ join sep rest
  end.

(** [cache.get(key, default)]: an entry past its time is as good as
    absent. *)
Definition cache_get (key : string) (default : Z) (w : Worker) : Z :=
  match worker_cache w !! key with
  | Some e => if worker_clock w <? cached_until e then cached e else default
  | None => default
  end.

(** [cache.set(key, value, timeout)] *)
Definition cache_set (key : string) (value timeout : Z) (w : Worker) : Worker :=
  {| worker_clock := worker_clock w;
     worker_cache := <[key := {| cached := value;
                                 cached_until := worker_clock w + timeout |}]>
                       (worker_cache w);
     PeriodicTask_objects := PeriodicTask_objects w;
     after_app_ready_tasks := after_app_ready_tasks w;
     after_app_shutdown_clean_tasks := after_app_shutdown_clean_tasks w;
     delayed := delayed w;
     debug_log := debug_log w |}.

(** [logger.debug(line)] *)
Definition debug (line : string) (w : Worker) : Worker :=
  {| worker_clock := worker_clock w; worker_cache := worker_cache w;
     PeriodicTask_objects := PeriodicTask_objects w;
     after_app_ready_tasks := after_app_ready_tasks w;
     after_app_shutdown_clean_tasks := after_app_shutdown_clean_tasks w;
     delayed := delayed w;
     debug_log := debug_log w ++ [line] |}.

(** [subtask(task).delay()] *)
Definition delay (task : string) (w : Worker) : Worker :=
  {| worker_clock := worker_clock w; worker_cache := worker_cache w;
     PeriodicTask_objects := PeriodicTask_objects w;
     after_app_ready_tasks := after_app_ready_tasks w;
     after_app_shutdown_clean_tasks := after_app_shutdown_clean_tasks w;
     delayed := delayed w ++ [task];
     debug_log := debug_log w |}.

(** [PeriodicTask.objects.filter(name__in=tasks).delete()] *)
Definition delete_named (tasks : list string) (w : Worker) : Worker :=
  {| worker_clock := worker_clock w; worker_cache := worker_cache w;
     PeriodicTask_objects :=
       List.filter (fun pt => negb (bool_decide (periodic_name pt ∈ tasks)))
                   (PeriodicTask_objects w);
     after_app_ready_tasks := after_app_ready_tasks w;
     after_app_shutdown_clean_tasks := after_app_shutdown_clean_tasks w;
     delayed := delayed w;
     debug_log := debug_log w |}.

(** Time passes on the worker. *)
Definition later (dt : Z) (w : Worker) : Worker :=
  {| worker_clock := worker_clock w + dt; worker_cache := worker_cache w;
     PeriodicTask_objects := PeriodicTask_objects w;
     after_app_ready_tasks := after_app_ready_tasks w;
     after_app_shutdown_clean_tasks := after_app_shutdown_clean_tasks w;
     delayed := delayed w;
     debug_log := debug_log w |}.

(** The body of the loop of [on_app_ready], lines 36-41: a task whose
    first periodic task is disabled is logged and skipped, any other is
    sent to the queue. *)
Definition start_task (w : Worker) (task : string) : Worker :=
  match List.find (fun pt => String.eqb (periodic_task pt) task)
                  (PeriodicTask_objects w) with
  | Some periodic_task =>
      if negb (periodic_enabled periodic_task)
      then debug ("Periodic task [" +:+ task +:+ "] is disabled!") w
      else delay task w
  | None => delay task w
  end.

(** [on_app_ready], signal_handlers.py lines 27-41. *)
Definition on_app_ready (w : Worker) : Worker :=
  if cache_get "CELERY_APP_READY" 0 w =? 1 then w
  else
    let w := cache_set "CELERY_APP_READY" 1 10 w in
    let tasks := after_app_ready_tasks w in
    let w := debug "Work ready signal recv" w in
    let w := debug ("Start need start task: [" +:+ join ", " tasks +:+ "]") w in
    foldl start_task w tasks.

(** [after_app_shutdown_periodic_tasks], signal_handlers.py lines 44-52. *)
Definition after_app_shutdown_periodic_tasks (w : Worker) : Worker :=
  if cache_get "CELERY_APP_SHUTDOWN" 0 w =? 1 then w
  else
    let w := cache_set "CELERY_APP_SHUTDOWN" 1 10 w in
    let tasks := after_app_shutdown_clean_tasks w in
    let w := debug "Worker shutdown signal recv" w in
    let w := debug ("Clean period tasks: [" +:+ join ", " tasks +:+ "]") w in
    delete_named tasks w.

(** Whether [on_app_ready] sends a task to the queue: its first periodic
    task, if it has one, is enabled. *)
Definition startable (w : Worker) (task : string) : bool :=
  match List.find (fun pt => String.eqb (periodic_task pt) task)
                  (PeriodicTask_objects w) with
  | Some pt => periodic_enabled pt
  | None => true
  end.

(** ** The socket authentication of [server/asgi.py] *)

(** A connection scope: its string entries and the user slot. *)
Record Scope := {
  entries : gmap string string;
  scope_user : option UserInfo
}.

(** What [backend().authenticate(request)] does: it returns [None], which
    the unpacking [user, _ = ...] turns into a [TypeError]; it returns a
    pair, whose user may be falsy; or it raises. *)
Inductive AuthResult :=
| AuthNone
| AuthPair (u : option UserInfo)
| AuthRaised (msg : string).

(** What [import_string(backend_str)] does: it raises, or it gives the
    class of a backend, which authenticates requests of type [Req]. *)
Inductive Imported (Req : Type) :=
| ImportFailed (msg : string)
| Backend (authenticate : Req -> AuthResult).
Arguments ImportFailed {Req} msg.
Arguments Backend {Req} authenticate.

Inductive LogLine :=
| LogInfo (line : string)
| LogWarning (line : string)
| LogError (line : string).

(** The log and the request [set_current_request] has stored. *)
Record AsgiState := {
  asgi_log : list LogLine;
  current_user : option UserInfo
}.

Definition asgi_logged (line : LogLine) (st : AsgiState) : AsgiState :=
  {| asgi_log := asgi_log st ++ [line]; current_user := current_user st |}.

(** The warning of the [except] clause, line 43. *)
Definition auth_warning (backend_str msg : string) : LogLine :=
  LogWarning ("web socket auth failed by " +:+ backend_str +:+ ". Exception: " +:+ msg).

(** The loop of [get_signature_user], lines 34-45, over the configured
    backends that are left.  [set_current_request] of server/utils.py
    stores the request, of which the user is kept here. *)
Fixpoint authenticate_with {Req : Type} (import_string : string -> Imported Req)
    (backends : list string) (request : Req) (st : AsgiState)
    : option UserInfo * AsgiState :=
  match backends with
  | [] => (None, asgi_logged (LogError "web socket auth failed.") st)
  | backend_str :: rest =>
      match import_string backend_str with
      | ImportFailed msg =>
          authenticate_with import_string rest request
            (asgi_logged (auth_warning backend_str msg) st)
      | Backend authenticate =>
          match authenticate request with
          | AuthRaised msg =>
              authenticate_with import_string rest request
                (asgi_logged (auth_warning backend_str msg) st)
          | AuthNone =>
              authenticate_with import_string rest request
                (asgi_logged
                   (auth_warning backend_str "cannot unpack non-iterable NoneType object")
                   st)
          | AuthPair None => authenticate_with import_string rest request st
          | AuthPair (Some user) =>
              (Some user,
               {| asgi_log := asgi_log st ++ [LogInfo "web socket auth success"];
                  current_user := Some user |})
          end
      end
  end.

(** [get_signature_user], asgi.py lines 28-46: the user, and the scope,
    which the function writes [method] to.  [scope['type']] raises
    [KeyError] on a scope without that entry.  [ASGIRequest(scope, None)]
    of [django.core.handlers.asgi] is a parameter: it builds the request
    the backends see, or raises, outside the [try]. *)
Definition get_signature_user {Req : Type} (ASGIRequest : Scope -> Outcome Req)
    (import_string : string -> Imported Req)
    (DEFAULT_AUTHENTICATION_CLASSES : list string) (scope : Scope) (st : AsgiState)
    : Outcome (option UserInfo) * Scope * AsgiState :=
  match entries scope !! "type" with
  | None => (Raised (KeyError "type"), scope, st)
  | Some type =>
      let scope :=
        if String.eqb type "websocket"
        then {| entries := <["method" := "GET"]> (entries scope);
                scope_user := scope_user scope |}
        else scope in
      match ASGIRequest scope with
      | Raised e => (Raised e, scope, st)
      | Returned request =>
          let '(user, st) :=
            authenticate_with import_string DEFAULT_AUTHENTICATION_CLASSES request st in
          (Returned user, scope, st)
      end
  end.

(** [WsSignatureAuthMiddleware.__call__], asgi.py lines 53-57: the inner
    application is called on the scope, with the user in it when there is
    one. *)
Definition WsSignatureAuthMiddleware_call {Req R : Type}
    (app : Scope -> AsgiState -> R)
    (ASGIRequest : Scope -> Outcome Req)
    (import_string : string -> Imported Req)
    (DEFAULT_AUTHENTICATION_CLASSES : list string) (scope : Scope) (st : AsgiState)
    : Outcome R :=
  match get_signature_user ASGIRequest import_string DEFAULT_AUTHENTICATION_CLASSES
          scope st with
  | (Raised e, _, _) => Raised e
  | (Returned user, scope, st) =>
      let scope :=
        match user with
        | Some u => {| entries := entries scope; scope_user := Some u |}
        | None => scope
        end in
      Returned (app scope st)
  end.

(** Whether a backend authenticates a request: it imports, and its
    [authenticate] returns a pair with a user. *)
Definition authenticates {Req : Type} (import_string : string -> Imported Req)
    (request : Req) (backend_str : string) : option UserInfo :=
  match import_string backend_str with
  | Backend authenticate =>
      match authenticate request with
      | AuthPair (Some u) => Some u
      | _ => None
      end
  | ImportFailed _ => None
  end.

(** ** Notions for the other statements *)

(** The [channel] of a registration, [request.data.get('channel',
    'default')]. *)
Definition channel (request : Request) : string :=
  default "default" (data request !! "channel").

(** A department new users may be bound to. *)
Definition bindable (d : DeptInfo) : bool := dept_is_active d && auto_bind d.

(** The department [RegisterView.post] binds a new user to: none for an
    empty channel, else the first bindable department of that code, else
    the first bindable department. *)
Definition bound_dept (request : Request) (w : World) : option DeptInfo :=
  if String.eqb (channel request) "" then None
  else
    match List.find (fun d => bindable d && String.eqb (dept_code d) (channel request))
                    (depts w) with
    | Some d => Some d
    | None => List.find bindable (depts w)
    end.

(** The user [LoginView.post] attributes a failed attempt to: the one
    named by the [username] field of the body as it was sent. *)
Definition attributed_user (request : Request) (w : World) : option UserInfo :=
  data request !! "username" ≫= fun name => List.find (has_username name) (users w).

(** The scope as [get_signature_user] leaves it, and as the request is
    built from it: a websocket scope has [method] set to [GET]. *)
Definition with_method (scope : Scope) : Scope :=
  match entries scope !! "type" with
  | Some "websocket" =>
      {| entries := <["method" := "GET"]> (entries scope);
         scope_user := scope_user scope |}
  | _ => scope
  end.

(** ** A worker and a socket configuration, for the examples *)

Module Samples.

(** Two periodic tasks, of which the purge is disabled; three tasks to
    start when the worker is ready, one periodic task to clean at
    shutdown. *)
Definition worker : Worker :=
  {| worker_clock := 50;
     worker_cache := ∅;
     PeriodicTask_objects :=
       [{| periodic_name := "sync"; periodic_task := "tasks.sync";
           periodic_enabled := true |};
        {| periodic_name := "purge"; periodic_task := "tasks.purge";
           periodic_enabled := false |}];
     after_app_ready_tasks := ["tasks.sync"; "tasks.purge"; "tasks.warm"];
     after_app_shutdown_clean_tasks := ["purge"];
     delayed := [];
     debug_log := [] |}.

(** The request is the scope; as [ASGIRequest] reads the path and the
    method of the scope, one without them raises. *)
Definition ASGIRequest (scope : Scope) : Outcome Scope :=
  match entries scope !! "path", entries scope !! "method" with
  | None, _ => Raised (KeyError "path")
  | Some _, None => Raised (KeyError "method")
  | Some _, Some _ => Returned scope
  end.

(** A token backend that knows the token of alice, a session backend that
    finds no user, and a backend whose module is missing. *)
Definition import_string (backend_str : string) : Imported Scope :=
  if String.eqb backend_str "auth.TokenAuthentication" then
    Backend (fun request =>
               match entries request !! "token" with
               | None => AuthNone
               | Some token =>
                   if String.eqb token "token-of-alice" then AuthPair (Some Fixture.alice)
                   else AuthRaised "Token is invalid or expired"
               end)
  else if String.eqb backend_str "auth.SessionAuthentication" then
    Backend (fun _ => AuthPair None)
  else ImportFailed ("No module named " +:+ backend_str).

Definition backends : list string :=
  ["auth.Missing"; "auth.SessionAuthentication"; "auth.TokenAuthentication"].

Definition socket (token : string) : Scope :=
  {| entries := {["type" := "websocket"; "path" := "/ws/message"; "token" := token]};
     scope_user := None |}.

Definition quiet : AsgiState := {| asgi_log := []; current_user := None |}.

(** A refresh token of alice, valid until 9000. *)
Definition refresh_of_alice : Token :=
  {| token_type := RefreshType; token_user_id := 1; token_exp := 9000; token_jti := 8 |}.

End Samples.

(** ** How the steps act on the world *)

Ltac steps :=
  unfold mbind, mret, M_bind, M_ret, raise, try_except, get_world, modify, emit in *;
  simpl in *.

(** Run the first step of a sequence with its equation [E]. *)
Ltac bind_with E := cbn beta iota zeta; unfold mbind at 1, M_bind at 1; rewrite E.

(** Run a read of the world that opens a sequence. *)
Ltac bind_get :=
  cbn beta iota zeta; unfold mbind at 1, M_bind at 1, get_world at 1; cbn beta iota zeta.

Lemma string_app_assoc (a b c : string) : (a +:+ b) +:+ c = a +:+ b +:+ c.
Proof.
  induction a as [|x a IH]; [reflexivity|].
  change (String x ((a +:+ b) +:+ c) = String x (a +:+ b +:+ c)). by rewrite IH.
Qed.

Lemma embeds_middle (a s b : string) : embeds s (a +:+ s +:+ b).
Proof. exists a, b. reflexivity. Qed.

Lemma render_try_again_embeds (n m : Z) :
  embeds (pretty n) (render (IncorrectTryAgain n m))
  /\ embeds (pretty m) (render (IncorrectTryAgain n m)).
Proof.
  split; unfold render.
  - apply embeds_middle.
  - rewrite <- (string_app_assoc (pretty n)), <- string_app_assoc. apply embeds_middle.
Qed.

Lemma render_locked_embeds (m : Z) : embeds (pretty m) (render (AccountLocked m)).
Proof. unfold render. apply embeds_middle. Qed.

(** The decision procedure for the order of audit write and ledger update
    is sound. *)
Lemma audit_then_ledger_sound (t : list Event) :
  audit_then_ledger t = true -> audit_before_ledger t.
Proof.
  induction t as [|e t IH]; simpl.
  - intros _. split; intros *; rewrite lookup_nil; discriminate.
  - destruct (is_ledger_update e) eqn:El; [discriminate|].
    destruct (is_audit_write e) eqn:Ea.
    + intros Hno. rewrite forallb_forall in Hno. split.
      * intros [|j] e' Hj Hl; simpl in Hj; [congruence|].
        exists 0%nat, e. split; [lia|]. split; [reflexivity | exact Ea].
      * intros [|i] [|j] x y Hi Hx Hj Hy; simpl in *; try lia; try congruence.
        apply list_elem_of_lookup_2, list_elem_of_In, Hno in Hi.
        rewrite Hx in Hi. discriminate.
    + intros Ht. destruct (IH Ht) as [IH1 IH2]. split.
      * intros [|j] e' Hj Hl; simpl in Hj; [congruence|].
        destruct (IH1 j e' Hj Hl) as (i & x & Hlt & Hi & Hx).
        exists (S i), x. split; [lia|]. split; assumption.
      * intros [|i] [|j] x y Hi Hx Hj Hy; simpl in *; try congruence.
        specialize (IH2 i j x y Hi Hx Hj Hy). lia.
Qed.

(** *** The block ledger *)

Lemma live_count_deleted (t : Z) (m : gmap string BlockRecord) (key : string) :
  live_count t (delete key m) key = 0.
Proof. unfold live_count, live_record. rewrite lookup_delete_eq. reflexivity. Qed.

Lemma live_block_deleted (t : Z) (m : gmap string BlockRecord) (key : string) :
  live_block t (delete key m) key = false.
Proof. unfold live_block, live_record. rewrite lookup_delete_eq. reflexivity. Qed.

Lemma record_failure_lookup (t threshold minutes : Z) (m : gmap string BlockRecord)
    (key : string) :
  record_failure t threshold minutes m key !! key =
  Some {| failed_count := live_count t m key + 1;
          blocked_until := if threshold <=? live_count t m key + 1
                           then Some (t + minutes * 60)
                           else live_record t m key ≫= blocked_until;
          expires_at := t + minutes * 60 |}.
Proof. unfold record_failure. apply lookup_insert_eq. Qed.

(** A record that reached its threshold at time [t] blocks exactly until
    [t + minutes * 60]. *)
Lemma record_failure_blocks (t threshold minutes : Z) (m : gmap string BlockRecord)
    (key : string) (t' : Z) :
  threshold <= live_count t m key + 1 ->
  live_block t' (record_failure t threshold minutes m key) key
  = (t' <? t + minutes * 60).
Proof.
  intros Hth. unfold live_block, live_record.
  rewrite record_failure_lookup. simpl.
  destruct (Z.leb_spec threshold (live_count t m key + 1)); [|lia].
  destruct (t' <? t + minutes * 60) eqn:E; simpl; [rewrite E|]; reflexivity.
Qed.

(** Read in the same instant, the record of a failure counts one more than
    before when its time to live is positive; with none it has expired
    already. *)
Lemma record_failure_live_count (t threshold minutes : Z) (m : gmap string BlockRecord)
    (key : string) :
  live_count t (record_failure t threshold minutes m key) key
  = if 0 <? minutes then live_count t m key + 1 else 0.
Proof.
  unfold live_count at 1, live_record at 1. rewrite record_failure_lookup. simpl.
  destruct (Z.ltb_spec t (t + minutes * 60)), (Z.ltb_spec 0 minutes);
    try reflexivity; lia.
Qed.

Lemma blocked_same_store (w w' : World) (u ip : string) :
  same_store w w' -> blocked w' u ip = blocked w u ip.
Proof. unfold blocked. intros (-> & -> & -> & _). reflexivity. Qed.

Lemma verified_user_same_store (w w' : World) (u p : string) :
  same_store w w' -> verified_user w' u p = verified_user w u p.
Proof. unfold verified_user. intros (_&_&_&_&_&_&->&_). reflexivity. Qed.

(** *** The relational store *)

Lemma username_free_not_verified (w : World) (u p : string) :
  username_taken w u = false -> verified_user w u p = None.
Proof.
  unfold username_taken, verified_user, has_username.
  induction (users w) as [|x l IH]; simpl; [reflexivity|].
  destruct (String.eqb (username x) u); simpl; [discriminate|exact IH].
Qed.

Lemma pk_bounded (l : list UserInfo) (x : UserInfo) :
  In x l -> pk x <= foldr Z.max 0 (pk <$> l).
Proof.
  induction l as [|y l IH]; simpl; [tauto|].
  intros [->|Hin]; [apply Z.le_max_l|].
  etrans; [exact (IH Hin) | apply Z.le_max_r].
Qed.

(** Saving a user with a fresh primary key touches no other row. *)
Lemma save_row_others (usr : UserInfo) (fields : list string) (l : list UserInfo) :
  pk usr = 1 + foldr Z.max 0 (pk <$> l) ->
  save_row usr fields <$> l = l.
Proof.
  intros Hpk. rewrite <- (list_fmap_id l) at 2.
  apply list_fmap_ext. intros i x Hx.
  apply list_elem_of_lookup_2, list_elem_of_In, pk_bounded in Hx.
  unfold save_row. destruct (Z.eqb_spec (pk x) (pk usr)); [lia|reflexivity].
Qed.

(** *** The steps of the views, one equation each *)

Section Steps.
Context `{Collaborators}.
Variable settings : Settings.

Lemma save_login_log_spec (request : Request) (login_type : LoginTypeChoices)
    (status : bool) (w : World) :
  save_login_log request login_type status w =
  match audit_error request with
  | Some e => (Raised e, w)
  | None =>
      (Returned tt,
       set_trace (trace w ++ [EvAuditWrite status])
         (set_login_log (login_log w ++ [audit_row request login_type status]) w))
  end.
Proof.
  unfold save_login_log, audit_error, audit_row.
  destruct (META request !! "HTTP_USER_AGENT") as [ua|]; [|reflexivity].
  unfold UserLoginLogSerializer_is_valid, UserLoginLogSerializer_save. steps.
  destruct (ip_parseable (get_request_ip (META request))); simpl; [|reflexivity].
  destruct (agent_parseable (parse_str ua)); reflexivity.
Qed.

(** Assigning [request.user] does not change what the audit write makes
    of the headers. *)
Lemma audit_error_set_user (request : Request) (x : option UserInfo) :
  audit_error (set_user request x) = audit_error request.
Proof. reflexivity. Qed.

Lemma bad_audit_context_error (request : Request) :
  bad_audit_context request ->
  exists e,
    audit_error request = Some e
    /\ match META request !! "HTTP_USER_AGENT" with
       | None => e = KeyError "HTTP_USER_AGENT"
       | Some _ => exists field, e = ValidationError field
       end.
Proof.
  unfold bad_audit_context, audit_error.
  intros [Hua | [Hip | (ua & Hua & Hag)]].
  - rewrite Hua. eauto.
  - rewrite Hip. destruct (META request !! "HTTP_USER_AGENT"); simpl; eauto.
  - rewrite Hua, Hag.
    destruct (ip_parseable (get_request_ip (META request))); simpl; eauto.
Qed.

(** The challenge gate writes to the challenge stores and the trace only,
    whatever its outcome. *)
Lemma check_token_and_captcha_frame (request : Request) (t c : bool)
    (w w' : World) (o : Outcome (string * option string)) :
  check_token_and_captcha request t c w = (o, w') ->
  same_store w w' /\ events_of w w' [EvChallengeGate].
Proof.
  unfold check_token_and_captcha, events_of, same_store. steps.
  intros E. repeat case_match; simplify_eq; simpl; auto 12.
Qed.

Lemma get_username_password_frame (encrypted : bool) (request : Request)
    (token : option string) (w w' : World) (o : Outcome (string * string)) :
  get_username_password encrypted request token w = (o, w') ->
  w' = set_trace (trace w ++ [EvCredentialDecode]) w.
Proof.
  unfold get_username_password. steps.
  intros E. repeat case_match; simplify_eq; reflexivity.
Qed.

Lemma passes_gates_frame (t c e : bool) (request : Request) (w w2 : World)
    (u p : string) :
  passes_gates t c e request w u p w2 ->
  same_store w w2 /\ events_of w w2 [EvChallengeGate; EvCredentialDecode].
Proof.
  intros (cid & tok & w1 & Hg & Hd).
  apply check_token_and_captcha_frame in Hg as [Hs He].
  apply get_username_password_frame in Hd. subst w2.
  unfold events_of, same_store in *. simpl. rewrite He, <- app_assoc.
  split; [exact Hs | reflexivity].
Qed.

Lemma check_is_block_spec (u ip : string) (w : World) :
  check_is_block settings u ip w =
  (if blocked w u ip
   then Raised (AccountLockedError (SECURITY_LOGIN_LIMIT_TIME settings))
   else Returned tt,
   set_trace (trace w ++ [EvBlockCheck]) w).
Proof.
  unfold check_is_block, blocked. steps.
  destruct (live_block _ _ u || live_block _ _ ip); reflexivity.
Qed.

Lemma is_valid_spec (u p : string) (w : World) :
  TokenObtainPairSerializer_is_valid settings u p w =
  match verified_user w u p with
  | None =>
      (Raised AuthenticationFailed,
       set_trace (trace w ++ [EvCredentialVerify false]) w)
  | Some usr =>
      (Returned (usr, issued_pair settings w usr),
       set_trace (trace w ++ [EvCredentialVerify true; EvIssueTokens (pk usr)])
         (set_next_jti (next_jti w + 2) w))
  end.
Proof.
  unfold TokenObtainPairSerializer_is_valid, authenticate, verified_user,
    RefreshToken_for_user, issued_pair. steps.
  destruct (find _ (users w)); simpl; [|reflexivity].
  rewrite <- app_assoc. reflexivity.
Qed.

Lemma get_token_lifetime_spec (usr : UserInfo) (w : World) :
  get_token_lifetime settings usr w =
  (Returned (clock w + ACCESS_TOKEN_LIFETIME settings,
             clock w + REFRESH_TOKEN_LIFETIME settings), w).
Proof. reflexivity. Qed.

Lemma clean_failed_count_spec (util : LoginBlockUtil) (w : World) :
  clean_failed_count util w =
  (Returned tt,
   set_trace (trace w ++ [EvLedgerClean (block_username util)])
     (set_ledger_user (delete (block_username util) (ledger_user w)) w)).
Proof. reflexivity. Qed.

Lemma clean_block_if_need_spec (util : LoginIpBlockUtil) (w : World) :
  clean_block_if_need util w =
  (Returned tt,
   set_trace (trace w ++ [EvLedgerIpClean (block_ip util)])
     (set_ledger_ip (delete (block_ip util) (ledger_ip w)) w)).
Proof. reflexivity. Qed.

Lemma incr_failed_count_spec (util : LoginBlockUtil) (w : World) :
  incr_failed_count settings util w =
  (Returned tt,
   set_trace (trace w ++ [EvLedgerFailure (block_username util)])
     (set_ledger_user
        (record_failure (clock w) (SECURITY_LOGIN_LIMIT_COUNT settings)
           (SECURITY_LOGIN_LIMIT_TIME settings) (ledger_user w)
           (block_username util)) w)).
Proof. reflexivity. Qed.

Lemma set_block_if_need_spec (util : LoginIpBlockUtil) (w : World) :
  set_block_if_need settings util w =
  (Returned tt,
   set_trace (trace w ++ [EvLedgerIpFailure (block_ip util)])
     (set_ledger_ip
        (record_failure (clock w) (SECURITY_LOGIN_IP_LIMIT_COUNT settings)
           (SECURITY_LOGIN_IP_LIMIT_TIME settings) (ledger_ip w)
           (block_ip util)) w)).
Proof. reflexivity. Qed.

Lemma get_remainder_times_spec (util : LoginBlockUtil) (w : World) :
  get_remainder_times settings util w =
  (Returned (Z.max 0 (SECURITY_LOGIN_LIMIT_COUNT settings
                      - live_count (clock w) (ledger_user w) (block_username util))), w).
Proof. reflexivity. Qed.

Lemma authenticate_spec (u p : string) (w : World) :
  authenticate u p w = (Returned (verified_user w u p), w).
Proof. reflexivity. Qed.

Lemma create_user_spec (name pw first nick : string) (w : World) :
  create_user name pw first nick w =
  (Returned {| pk := 1 + foldr Z.max 0 (pk <$> users w);
               username := name; password := pw;
               first_name := first; nickname := nick;
               is_active := true; last_login := None;
               dept := None; dept_belong := None |},
   set_trace (trace w ++ [EvCreateUser name])
     (set_users (users w ++ [{| pk := 1 + foldr Z.max 0 (pk <$> users w);
               username := name; password := pw;
               first_name := first; nickname := nick;
               is_active := true; last_login := None;
               dept := None; dept_belong := None |}]) w)).
Proof. reflexivity. Qed.

Lemma for_user_spec (usr : UserInfo) (w : World) :
  RefreshToken_for_user settings usr w =
  (Returned (issued_pair settings w usr),
   set_trace (trace w ++ [EvIssueTokens (pk usr)]) (set_next_jti (next_jti w + 2) w)).
Proof. reflexivity. Qed.

Lemma save_spec (usr : UserInfo) (fields : list string) (w : World) :
  save usr fields w =
  (Returned tt,
   set_trace (trace w ++ [EvSaveUser (pk usr)])
     (set_users (save_row usr fields <$> users w) w)).
Proof. reflexivity. Qed.

Lemma set_storage_cache_spec (key : Z * string) (value timeout : Z) (w : World) :
  set_storage_cache key value timeout w =
  (Returned tt,
   set_trace (trace w ++ [EvBlacklistAccess (fst key)])
     (set_black_access
        (<[key := {| entry_value := value; entry_ttl := timeout;
                     entry_expiry := clock w + timeout |}]> (black_access w)) w)).
Proof. reflexivity. Qed.

(** What the guarded block of the logout does to the world: nothing but a
    possible entry in the refresh blacklist and its event. *)
Lemma revoke_refresh_frame (raw : RawToken) (w : World) :
  exists o w',
    try_except (token ← RefreshToken raw; blacklist token) w = (Returned o, w')
    /\ black_access w' = black_access w
    /\ ((w' = w /\ exists e, o = Raised e)
        \/ (exists t, raw = Signed t /\ o = Returned tt
                      /\ black_refresh w' = {[token_jti t]} ∪ black_refresh w
                      /\ trace w' = trace w ++ [EvBlacklistRefresh (token_jti t)])).
Proof.
  unfold try_except, RefreshToken, blacklist. steps.
  destruct raw as [t|s]; [|eauto 10].
  destruct (token_type t); [eauto 10|].
  destruct (token_exp t <=? clock w); [eauto 10|].
  case_bool_decide; [eauto 10|].
  do 2 eexists. split; [reflexivity|]. split; [reflexivity|].
  right. exists t. auto.
Qed.

Lemma LogoutView_post_spec (request : Request) (auth : AccessAuth) (w : World) :
  exists w',
    LogoutView_post request auth w = (Returned ApiResponse_empty, w')
    /\ black_access w'
       = <[(payload_user_id auth, md5_hexdigest (auth_token auth)) :=
             {| entry_value := 1;
                entry_ttl := payload_exp auth - clock w;
                entry_expiry := payload_exp auth |}]> (black_access w)
    /\ ((black_refresh w' = black_refresh w
         /\ events_of w w' [EvBlacklistAccess (payload_user_id auth)])
        \/ exists t, refresh_field request = Some (Signed t)
                     /\ black_refresh w' = {[token_jti t]} ∪ black_refresh w
                     /\ events_of w w' [EvBlacklistAccess (payload_user_id auth);
                                        EvBlacklistRefresh (token_jti t)]).
Proof.
  unfold LogoutView_post. bind_get. bind_with set_storage_cache_spec.
  cbn beta iota zeta.
  replace (clock w + (payload_exp auth - clock w)) with (payload_exp auth) by lia.
  destruct (refresh_field request) as [raw|].
  - unfold mbind at 1, M_bind at 1.
    match goal with |- context [try_except _ ?W] =>
      destruct (revoke_refresh_frame raw W) as (o & w' & Ht & Hb & Hcase) end.
    rewrite Ht. eexists. split; [reflexivity|]. split; [exact Hb|].
    destruct Hcase as [[-> _] | (t & -> & _ & Hr & Htr)].
    + left. split; reflexivity.
    + right. exists t. split; [reflexivity|]. split; [exact Hr|].
      unfold events_of. rewrite Htr. simpl. rewrite <- app_assoc. reflexivity.
  - eexists. split; [reflexivity|]. split; [reflexivity|]. left. split; reflexivity.
Qed.

End Steps.

(** The opening of [LoginView.post] up to credential verification, for a
    request that passes the feature flag, the gates and the block check. *)
Ltac login_prefix Hen Hpass Hblk Hs He :=
  destruct (passes_gates_frame _ _ _ _ _ _ _ _ Hpass) as [Hs He];
  let cid := fresh "cid" in let tok := fresh "tok" in let w1 := fresh "w1" in
  let Hg := fresh "Hg" in let Hd := fresh "Hd" in
  destruct Hpass as (cid & tok & w1 & Hg & Hd);
  unfold LoginView_post; rewrite Hen; cbn [negb];
  bind_with Hg; bind_with Hd; bind_with check_is_block_spec;
  rewrite (blocked_same_store _ _ _ _ Hs), Hblk;
  unfold try_except; bind_with is_valid_spec;
  erewrite verified_user_same_store by exact Hs.

(** ** The login view *)

Section Login.
Context `{Collaborators}.
Variable settings : Settings.

(** C1.  A login request that reaches the block check of line 135, that
    is, one made while login access is enabled and for which the challenge
    gate and the credential decoder of lines 130-133 have returned, and
    whose submitted username or origin address has a live block, is
    rejected with the account-locked error before credential verification
    is attempted: the request performs the challenge, decoding and
    block-check steps and nothing else, and leaves the ledger, the users
    and the login log as they were.  The password plays no part, so a
    correct one submitted during the block window is rejected all the
    same. *)
Theorem blocked_login_is_rejected_before_verification
    (request : Request) (w w2 : World) (u p : string) :
  SECURITY_LOGIN_ACCESS_ENABLED settings = true ->
  passes_login_gates settings request w u p w2 ->
  blocked w u (get_request_ip (META request)) = true ->
  exists w',
    LoginView_post settings request w
      = (Raised (AccountLockedError (SECURITY_LOGIN_LIMIT_TIME settings)), w')
    /\ events_of w w' [EvChallengeGate; EvCredentialDecode; EvBlockCheck]
    /\ same_store w w'.
Proof.
  intros Hen Hpass Hblk.
  destruct (passes_gates_frame _ _ _ _ _ _ _ _ Hpass) as [Hs He].
  destruct Hpass as (cid & tok & w1 & Hg & Hd).
  unfold LoginView_post. rewrite Hen. cbn [negb].
  bind_with Hg. bind_with Hd. bind_with check_is_block_spec.
  rewrite (blocked_same_store _ _ _ _ Hs), Hblk.
  eexists. split; [reflexivity|]. split.
  - unfold events_of in *. simpl. rewrite He, <- app_assoc. reflexivity.
  - exact Hs.
Qed.

(** C2, as the code has it.  A login request that passes credential
    verification and whose audit record is written answers with the token
    pair and leaves no ledger record for the username nor for the address:
    both counters read zero and neither key is blocked, whatever the two
    records held before. *)
Theorem verified_login_clears_both_counters
    (request : Request) (w w2 : World) (u p : string) (usr : UserInfo) :
  SECURITY_LOGIN_ACCESS_ENABLED settings = true ->
  passes_login_gates settings request w u p w2 ->
  blocked w u (get_request_ip (META request)) = false ->
  verified_user w u p = Some usr ->
  audit_error request = None ->
  exists w',
    LoginView_post settings request w
      = (Returned (ApiResponse_data (issued_data settings w usr)), w')
    /\ ledger_user w' !! u = None
    /\ ledger_ip w' !! get_request_ip (META request) = None
    /\ live_count (clock w') (ledger_user w') u = 0
    /\ live_count (clock w') (ledger_ip w') (get_request_ip (META request)) = 0
    /\ blocked w' u (get_request_ip (META request)) = false.
Proof.
  intros Hen Hpass Hblk Hver Haud.
  login_prefix Hen Hpass Hblk Hs He. rewrite Hver.
  unfold issued_pair at 1. bind_with get_token_lifetime_spec.
  bind_with save_login_log_spec. rewrite audit_error_set_user, Haud.
  bind_with clean_failed_count_spec. bind_with clean_block_if_need_spec.
  destruct Hs as (Hc & Hu & Hi & _ & _ & Hj & _).
  eexists. split.
  - unfold mret, M_ret, issued_data, issued_pair. simpl. rewrite Hc, Hj. reflexivity.
  - unfold blocked. simpl.
    rewrite !lookup_delete_eq, !live_count_deleted, !live_block_deleted. auto.
Qed.

(** C3, as the code has it.  A login request that fails credential
    verification and whose audit record is written raises the failure
    count of the username and that of the address by one each; a count
    that has reached its threshold sets [blocked_until] to the current time
    plus the configured minutes of that key, and the key is blocked exactly
    until then. *)
Theorem failed_login_counts_and_blocks
    (request : Request) (w w2 : World) (u p : string) :
  SECURITY_LOGIN_ACCESS_ENABLED settings = true ->
  passes_login_gates settings request w u p w2 ->
  blocked w u (get_request_ip (META request)) = false ->
  verified_user w u p = None ->
  audit_error request = None ->
  let ip := get_request_ip (META request) in
  let count_user := live_count (clock w) (ledger_user w) u + 1 in
  let count_ip := live_count (clock w) (ledger_ip w) ip + 1 in
  let until_user := clock w + SECURITY_LOGIN_LIMIT_TIME settings * 60 in
  let until_ip := clock w + SECURITY_LOGIN_IP_LIMIT_TIME settings * 60 in
  exists resp w',
    LoginView_post settings request w = (Returned resp, w')
    /\ failed_count <$> ledger_user w' !! u = Some count_user
    /\ failed_count <$> ledger_ip w' !! ip = Some count_ip
    /\ (SECURITY_LOGIN_LIMIT_COUNT settings <= count_user ->
        ledger_user w' !! u ≫= blocked_until = Some until_user
        /\ forall t, live_block t (ledger_user w') u = (t <? until_user))
    /\ (SECURITY_LOGIN_IP_LIMIT_COUNT settings <= count_ip ->
        ledger_ip w' !! ip ≫= blocked_until = Some until_ip
        /\ forall t, live_block t (ledger_ip w') ip = (t <? until_ip)).
Proof.
  intros Hen Hpass Hblk Hver Haud ip count_user count_ip until_user until_ip.
  login_prefix Hen Hpass Hblk Hs He. rewrite Hver.
  bind_get. bind_with save_login_log_spec.
  rewrite audit_error_set_user, Haud.
  bind_with incr_failed_count_spec. bind_with set_block_if_need_spec.
  bind_with get_remainder_times_spec.
  destruct Hs as (Hc & Hu & Hi & _).
  do 2 eexists. split; [reflexivity|]. simpl. rewrite Hc, Hu, Hi.
  rewrite !record_failure_lookup. simpl.
  split; [reflexivity|]. split; [reflexivity|].
  subst count_user count_ip until_user until_ip ip.
  split; intros Hth.
  - split; [|intros t; apply record_failure_blocks; exact Hth].
    destruct (Z.leb_spec (SECURITY_LOGIN_LIMIT_COUNT settings)
                (live_count (clock w) (ledger_user w) u + 1)); [reflexivity|lia].
  - split; [|intros t; apply record_failure_blocks; exact Hth].
    destruct (Z.leb_spec (SECURITY_LOGIN_IP_LIMIT_COUNT settings)
                (live_count (clock w) (ledger_ip w) (get_request_ip (META request)) + 1));
      [reflexivity|lia].
Qed.

(** C4, as the code has it.  A login request that fails credential
    verification and whose audit record is written answers with code 9999.
    The failure count the answer is built from is the one the ledger holds
    once this failure is recorded: the count before the request plus one
    when the configured block time is positive, and zero when it is not,
    the record then having expired as soon as it was written.  With
    [remaining] the threshold minus that count, floored at zero: when it is
    positive the detail is the try-again message, whose text embeds
    [remaining] and the configured block time; when it is zero the detail
    is the account-locked message, whose text embeds the configured block
    time in minutes. *)
Theorem failed_login_answers_9999
    (request : Request) (w w2 : World) (u p : string) :
  SECURITY_LOGIN_ACCESS_ENABLED settings = true ->
  passes_login_gates settings request w u p w2 ->
  blocked w u (get_request_ip (META request)) = false ->
  verified_user w u p = None ->
  audit_error request = None ->
  exists d w',
    LoginView_post settings request w = (Returned (ApiResponse_error 9999 d), w')
    /\ let block_time := SECURITY_LOGIN_LIMIT_TIME settings in
       let count := live_count (clock w') (ledger_user w') u in
       let remaining := Z.max 0 (SECURITY_LOGIN_LIMIT_COUNT settings - count) in
       (0 < block_time -> count = live_count (clock w) (ledger_user w) u + 1)
       /\ (block_time <= 0 -> count = 0)
       /\ (0 < remaining ->
          d = IncorrectTryAgain remaining block_time
          /\ embeds (pretty remaining) (render d)
          /\ embeds (pretty block_time) (render d))
       /\ (remaining = 0 ->
          d = AccountLocked block_time /\ embeds (pretty block_time) (render d)).
Proof.
  intros Hen Hpass Hblk Hver Haud.
  login_prefix Hen Hpass Hblk Hs He. rewrite Hver.
  bind_get. bind_with save_login_log_spec.
  rewrite audit_error_set_user, Haud.
  bind_with incr_failed_count_spec. bind_with set_block_if_need_spec.
  bind_with get_remainder_times_spec.
  destruct Hs as (Hc & Hu & _).
  do 2 eexists. split; [reflexivity|]. cbn zeta. simpl.
  rewrite Hc, Hu, record_failure_live_count.
  split; [intros Hpos; destruct (Z.ltb_spec 0 (SECURITY_LOGIN_LIMIT_TIME settings));
          [reflexivity|lia]|].
  split; [intros Hno; destruct (Z.ltb_spec 0 (SECURITY_LOGIN_LIMIT_TIME settings));
          [lia|reflexivity]|].
  set (remaining := Z.max 0 _).
  split; intros Hr.
  - destruct (Z.ltb_spec 0 remaining); [|lia].
    split; [reflexivity|]. apply render_try_again_embeds.
  - destruct (Z.ltb_spec 0 remaining); [lia|].
    split; [reflexivity|]. apply render_locked_embeds.
Qed.

(** Close a goal on the events of a run: the trace so far extends the
    initial one by [He], and the events pass the order check. *)
Ltac order_done He :=
  eexists; unfold events_of in *; simpl; rewrite ?He, <- ?app_assoc;
  split; [first [reflexivity | symmetry; apply app_nil_r]
         | by apply audit_then_ledger_sound].

(** C7, as the code has it.  Within every login request the audit record
    is written before the block ledger is updated: each ledger update
    (the two failure counters, or the two resets) has the audit write
    before it, and no ledger update comes before the audit write.  This is
    the reverse of the order the claim states. *)
Theorem login_audit_write_precedes_ledger_update (request : Request) (w : World) :
  exists delta,
    events_of w (snd (LoginView_post settings request w)) delta
    /\ audit_before_ledger delta.
Proof.
  unfold LoginView_post.
  destruct (SECURITY_LOGIN_ACCESS_ENABLED settings); cbn [negb]; [|order_done I].
  unfold mbind at 1, M_bind at 1.
  destruct (check_token_and_captcha _ _ _ w) as [[[cid tok]|e] w1] eqn:Hg;
    apply check_token_and_captcha_frame in Hg as [Hs1 He1]; [|order_done He1].
  unfold mbind at 1, M_bind at 1.
  destruct (get_username_password _ _ _ w1) as [[[u p]|e] w2] eqn:Hd;
    apply get_username_password_frame in Hd; subst w2; [|order_done He1].
  bind_with check_is_block_spec.
  destruct (blocked _ u _); [order_done He1|].
  unfold try_except. bind_with is_valid_spec.
  destruct (verified_user _ u p) as [usr|].
  - unfold issued_pair at 1. bind_with get_token_lifetime_spec.
    bind_with save_login_log_spec. rewrite audit_error_set_user.
    destruct (audit_error request); [order_done He1|].
    bind_with clean_failed_count_spec. bind_with clean_block_if_need_spec.
    order_done He1.
  - bind_get. bind_with save_login_log_spec. rewrite audit_error_set_user.
    destruct (audit_error request); [order_done He1|].
    bind_with incr_failed_count_spec. bind_with set_block_if_need_spec.
    bind_with get_remainder_times_spec.
    order_done He1.
Qed.

(** C8, as the code has it.  When the audit context of a login request is
    unusable, [save_login_log] raises and writes nothing: [KeyError] when
    the User-Agent header is missing, a validation error when the address
    or the agent is unparseable.  The error is not caught: a login request
    that has reached credential verification raises it in turn, whether
    the credentials were right or wrong, and neither the login log nor the
    ledger has changed. *)
Theorem audit_failure_fails_the_login
    (request : Request) (w w2 : World) (u p : string) :
  SECURITY_LOGIN_ACCESS_ENABLED settings = true ->
  passes_login_gates settings request w u p w2 ->
  blocked w u (get_request_ip (META request)) = false ->
  bad_audit_context request ->
  exists e,
    match META request !! "HTTP_USER_AGENT" with
    | None => e = KeyError "HTTP_USER_AGENT"
    | Some _ => exists field, e = ValidationError field
    end
    /\ (forall login_type status w0,
          save_login_log request login_type status w0 = (Raised e, w0))
    /\ exists w',
         LoginView_post settings request w = (Raised e, w')
         /\ login_log w' = login_log w
         /\ ledger_user w' = ledger_user w
         /\ ledger_ip w' = ledger_ip w.
Proof.
  intros Hen Hpass Hblk Hbad.
  destruct (bad_audit_context_error _ Hbad) as (e & Haud & Hkind).
  exists e. split; [exact Hkind|]. split.
  { intros lt st w0. rewrite save_login_log_spec, Haud. reflexivity. }
  login_prefix Hen Hpass Hblk Hs He.
  destruct Hs as (_ & Hu & Hi & _ & _ & _ & _ & _ & Hl).
  destruct (verified_user w u p) as [usr|].
  - unfold issued_pair at 1. bind_with get_token_lifetime_spec.
    bind_with save_login_log_spec. rewrite audit_error_set_user, Haud.
    eexists. split; [reflexivity|]. simpl. auto.
  - bind_get. bind_with save_login_log_spec. rewrite audit_error_set_user, Haud.
    eexists. split; [reflexivity|]. simpl. auto.
Qed.

End Login.

(** ** The registration view *)

Section Register.
Context `{Collaborators}.
Variable settings : Settings.

(** C10.  A registration request that reaches the password check of lines
    80-81, that is, one for which the challenge gate and the credential
    decoder of lines 75-79 have returned, and whose password fails the
    password rules is answered with code 1001, the code of the answer to a
    request made while registration is disabled; only the detail tells the
    two answers apart. *)
Theorem weak_password_answers_1001
    (request : Request) (w w2 : World) (u p : string) :
  passes_register_gates settings request w u p w2 ->
  check_password_rules p = false ->
  exists resp w',
    RegisterView_post settings request w = (Returned resp, w')
    /\ code resp = Some 1001
    /\ code resp = code (ApiResponse_error 1001 RegistrationForbidden)
    /\ (SECURITY_REGISTER_ACCESS_ENABLED settings = true ->
        detail resp = Some PasswordNotMatchRules)
    /\ (SECURITY_REGISTER_ACCESS_ENABLED settings = false ->
        detail resp = Some RegistrationForbidden).
Proof.
  intros Hpass Hweak.
  destruct Hpass as (cid & tok & w1 & Hg & Hd).
  unfold RegisterView_post.
  destruct (SECURITY_REGISTER_ACCESS_ENABLED settings); cbn [negb].
  - bind_with Hg. bind_with Hd. cbn beta iota zeta. rewrite Hweak. cbn [negb].
    do 2 eexists. split; [reflexivity|]. simpl. repeat split; auto; discriminate.
  - do 2 eexists. split; [reflexivity|]. simpl. repeat split; auto; discriminate.
Qed.

(** C9, as the code has it.  A registration request that passes the
    feature, challenge, password-rule and duplicate-username checks and
    whose audit context is usable creates the user under a fresh primary
    key, answers with an access and refresh token pair issued to that user
    together with the two expiry times, stores the current time as the
    user's [last_login], and appends one success record for that user to
    the login log, all within the request. *)
Theorem registration_creates_user_and_logs_in
    (request : Request) (w w2 : World) (u p : string) :
  SECURITY_REGISTER_ACCESS_ENABLED settings = true ->
  passes_register_gates settings request w u p w2 ->
  check_password_rules p = true ->
  username_taken w u = false ->
  audit_error request = None ->
  exists new_user w',
    RegisterView_post settings request w
      = (Returned (ApiResponse_data (issued_data settings w new_user)), w')
    /\ username new_user = u /\ password new_user = p
    /\ Forall (fun x => pk x <> pk new_user) (users w)
    /\ last_login new_user = Some (clock w)
    /\ users w' = users w ++ [new_user]
    /\ login_log w'
       = login_log w ++ [audit_row (set_user request (Some new_user)) USERNAME true]
    /\ events_of w w'
         [EvChallengeGate; EvCredentialDecode; EvCreateUser u;
          EvIssueTokens (pk new_user); EvSaveUser (pk new_user); EvAuditWrite true].
Proof.
  intros Hen Hpass Hrules Hfree Haud.
  destruct (passes_gates_frame _ _ _ _ _ _ _ _ Hpass) as [Hs He].
  destruct Hpass as (cid & tok & w1 & Hg & Hd).
  unfold RegisterView_post. rewrite Hen. cbn [negb].
  bind_with Hg. bind_with Hd. cbn beta iota zeta. rewrite Hrules. cbn [negb].
  bind_get.
  assert (Hfree2 : username_taken w2 u = false).
  { unfold username_taken in *. destruct Hs as (_&_&_&_&_&_&->&_). exact Hfree. }
  fold (username_taken w2 u). rewrite Hfree2.
  bind_with authenticate_spec.
  rewrite (username_free_not_verified _ _ _ Hfree2).
  cbn beta iota zeta. unfold mbind at 1, M_bind at 1.
  bind_with create_user_spec. cbn beta iota zeta.
  destruct Hs as (Hc & _ & _ & _ & _ & Hj & Hus & _ & Hl).
  assert (Hfresh : Forall (fun x => pk x <> 1 + foldr Z.max 0 (pk <$> users w2)) (users w)).
  { rewrite <- Hus. apply Forall_forall.
    intros x Hx%list_elem_of_In%pk_bounded. lia. }
  (* the three ways the new row leaves the department lookup *)
  destruct (negb (String.eqb (default "default" (data request !! "channel")) ""));
    [bind_get;
     match goal with
     | |- context [match ?chosen with Some _ => mret (with_dept _ _, _) | None => _ end] =>
         destruct chosen as [d|]
     end|];
    unfold mret at 1, M_ret at 1;
    bind_with for_user_spec; unfold issued_pair at 1;
    bind_get; bind_with save_spec; bind_with get_token_lifetime_spec;
    bind_with save_login_log_spec; rewrite audit_error_set_user, Haud;
    match goal with
    | |- context [EvSaveUser (pk ?usr)] => exists usr
    end;
    (eexists; split;
     [unfold mret, M_ret, issued_data, issued_pair; simpl; rewrite Hc, Hj; reflexivity|]);
    simpl; rewrite Hc, Hl, fmap_app, save_row_others by reflexivity;
    (repeat split; try assumption);
    first [ reflexivity
          | unfold save_row; simpl; rewrite Z.eqb_refl, Hus; reflexivity
          | unfold events_of in *; simpl; rewrite He, <- !app_assoc; reflexivity ].
Qed.

End Register.

(** ** The logout view *)

Section Logout.
Context `{Collaborators}.

(** C5.  Every logout request returns the generic success response
    [ApiResponse()]: a submitted refresh token that fails to decode, has
    expired or is already revoked makes [RefreshToken] raise inside the
    guarded block, the error is dropped there and the refresh blacklist
    stays as it was; only a valid token adds its identifier to it. *)
Theorem logout_always_succeeds (request : Request) (auth : AccessAuth) (w : World) :
  exists w',
    LogoutView_post request auth w = (Returned ApiResponse_empty, w')
    /\ (black_refresh w' = black_refresh w
        \/ exists t, refresh_field request = Some (Signed t)
                     /\ black_refresh w' = {[token_jti t]} ∪ black_refresh w).
Proof.
  destruct (LogoutView_post_spec request auth w) as (w' & Hrun & _ & Hcase).
  exists w'. split; [exact Hrun|].
  destruct Hcase as [[Hr _] | (t & Hf & Hr & _)]; [by left|].
  right. exists t. split; assumption.
Qed.

(** C6.  Every logout request performs exactly one write to the access
    token blacklist: the entry under the pair of the user id and the MD5
    digest of the access token is set to the sentinel 1 with a time to
    live of [exp] minus the current time, so that it expires at [exp], the
    expiry of the token itself; no other key of the blacklist changes. *)
Theorem logout_blacklists_access_token
    (request : Request) (auth : AccessAuth) (w : World) :
  let w' := snd (LogoutView_post request auth w) in
  let key := (payload_user_id auth, md5_hexdigest (auth_token auth)) in
  black_access w'
    = <[key := {| entry_value := 1;
                  entry_ttl := payload_exp auth - clock w;
                  entry_expiry := payload_exp auth |}]> (black_access w)
  /\ exists delta,
       events_of w w' delta
       /\ List.filter is_blacklist_access delta = [EvBlacklistAccess (payload_user_id auth)].
Proof.
  destruct (LogoutView_post_spec request auth w) as (w' & Hrun & Hb & Hcase).
  rewrite Hrun. simpl. split; [exact Hb|].
  destruct Hcase as [[_ He] | (t & _ & _ & He)]; eexists; (split; [exact He|reflexivity]).
Qed.

End Logout.

(** ** The claims on the concrete deployment *)

Module Examples.
Import Fixture.

(** *** Scenarios of section 8 of the specification *)

(** Threshold 5, block of 30 minutes: the fifth wrong password for alice
    is answered 9999 with the locked message. *)
Example fifth_failure_locks_alice :
  fst (@LoginView_post collaborators on (login browser_headers "wrong") (after_failures 4))
  = Returned (ApiResponse_error 9999 (AccountLocked 30)).
Proof. reflexivity. Qed.

(** After three failures the answer announces two remaining attempts and
    the block time. *)
Example third_failure_leaves_two_attempts :
  fst (@LoginView_post collaborators on (login browser_headers "wrong") (after_failures 2))
  = Returned (ApiResponse_error 9999 (IncorrectTryAgain 2 30))
  /\ render (IncorrectTryAgain 2 30)
     = "The username or password you entered is incorrect, please enter it again. You can also try 2 times (The account will be temporarily locked for 30 minutes)".
Proof. split; reflexivity. Qed.

(** A refresh token that does not decode, one that has expired and one
    that was revoked before all make [RefreshToken] raise; the logout
    answers [ApiResponse()] each time. *)
Example logout_with_unusable_refresh_token :
  let expired := Signed {| token_type := RefreshType; token_user_id := 1;
                           token_exp := 900; token_jti := 7 |} in
  let revoked := Signed {| token_type := RefreshType; token_user_id := 1;
                           token_exp := 9000; token_jti := 8 |} in
  let w := set_black_refresh {[8]} fresh in
  (forall raw, raw ∈ [Garbage "junk"; expired; revoked] ->
     exists msg, fst (RefreshToken raw w) = Raised (TokenError msg))
  /\ (forall raw, raw ∈ [Garbage "junk"; expired; revoked] ->
        fst (@LogoutView_post collaborators (logout (Some raw)) access_of_alice w)
        = Returned ApiResponse_empty).
Proof.
  cbn zeta. split; intros raw Hraw;
    repeat (apply elem_of_cons in Hraw as [->|Hraw]; [vm_compute; eauto|]);
    by apply elem_of_nil in Hraw.
Qed.

(** *** C1 *)

(** C1 at work: alice is blocked until 2800 and logs in at 1000 with her
    correct password. *)
Lemma blocked_login_witness :
  exists w',
    @LoginView_post collaborators on (login browser_headers "correct horse") alice_blocked
      = (Raised (AccountLockedError 30), w')
    /\ events_of alice_blocked w' [EvChallengeGate; EvCredentialDecode; EvBlockCheck]
    /\ same_store alice_blocked w'.
Proof.
  eapply (@blocked_login_is_rejected_before_verification collaborators on
            (login browser_headers "correct horse") alice_blocked _ "alice" "correct horse").
  - reflexivity.
  - do 3 eexists. split; reflexivity.
  - reflexivity.
Defined.

(** *** C2 *)

(** C2 at work: three failures on record, then the correct password. *)
Lemma verified_login_witness :
  exists w',
    @LoginView_post collaborators on (login browser_headers "correct horse") (after_failures 3)
      = (Returned (ApiResponse_data (issued_data on (after_failures 3) alice)), w')
    /\ ledger_user w' !! "alice" = None
    /\ ledger_ip w' !! "1.2.3.4" = None
    /\ live_count (clock w') (ledger_user w') "alice" = 0
    /\ live_count (clock w') (ledger_ip w') "1.2.3.4" = 0
    /\ blocked w' "alice" "1.2.3.4" = false.
Proof.
  eapply (@verified_login_clears_both_counters collaborators on
            (login browser_headers "correct horse") (after_failures 3) _
            "alice" "correct horse" alice).
  - reflexivity.
  - do 3 eexists. split; reflexivity.
  - reflexivity.
  - reflexivity.
  - reflexivity.
Defined.

(** C2 as stated fails: the same login from a client that sends no
    User-Agent header passes credential verification, then [save_login_log]
    raises [KeyError] and both counters still read 3. *)
Lemma verified_login_without_user_agent_keeps_counters :
  let run := @LoginView_post collaborators on (login bare_headers "correct horse")
               (after_failures 3) in
  verified_user (after_failures 3) "alice" "correct horse" = Some alice
  /\ fst run = Raised (KeyError "HTTP_USER_AGENT")
  /\ trace (snd run) = [EvChallengeGate; EvCredentialDecode; EvBlockCheck;
                        EvCredentialVerify true; EvIssueTokens 1]
  /\ live_count (clock (snd run)) (ledger_user (snd run)) "alice" = 3
  /\ live_count (clock (snd run)) (ledger_ip (snd run)) "1.2.3.4" = 3.
Proof. vm_compute. repeat split. Qed.

(** *** C3 *)

(** C3 at work: the fifth failure of alice reaches her threshold of 5 and
    blocks her until 2800; the address, at 5 of 10, is not blocked. *)
Lemma failed_login_witness :
  exists resp w',
    @LoginView_post collaborators on (login browser_headers "wrong") (after_failures 4)
      = (Returned resp, w')
    /\ failed_count <$> ledger_user w' !! "alice" = Some 5
    /\ failed_count <$> ledger_ip w' !! "1.2.3.4" = Some 5
    /\ (5 <= 5 ->
        ledger_user w' !! "alice" ≫= blocked_until = Some 2800
        /\ forall t, live_block t (ledger_user w') "alice" = (t <? 2800))
    /\ (10 <= 5 ->
        ledger_ip w' !! "1.2.3.4" ≫= blocked_until = Some 4600
        /\ forall t, live_block t (ledger_ip w') "1.2.3.4" = (t <? 4600)).
Proof.
  eapply (@failed_login_counts_and_blocks collaborators on
            (login browser_headers "wrong") (after_failures 4) _ "alice" "wrong").
  - reflexivity.
  - do 3 eexists. split; reflexivity.
  - reflexivity.
  - reflexivity.
  - reflexivity.
Defined.

(** C3 as stated fails: a wrong password from a client that sends no
    User-Agent header fails credential verification, and neither count
    goes up. *)
Lemma failed_login_without_user_agent_is_not_counted :
  let run := @LoginView_post collaborators on (login bare_headers "wrong") (after_failures 3) in
  verified_user (after_failures 3) "alice" "wrong" = None
  /\ trace (snd run) = [EvChallengeGate; EvCredentialDecode; EvBlockCheck;
                        EvCredentialVerify false]
  /\ ledger_user (snd run) !! "alice" = Some (failures 3)
  /\ ledger_ip (snd run) !! "1.2.3.4" = Some (failures 3)
  /\ live_count (clock (snd run)) (ledger_user (snd run)) "alice" <> 3 + 1.
Proof. vm_compute. repeat split. discriminate. Qed.

(** *** C4 *)

(** C4 at work: the third failure of alice leaves two attempts. *)
Lemma failed_login_answer_witness :
  exists d w',
    @LoginView_post collaborators on (login browser_headers "wrong") (after_failures 2)
      = (Returned (ApiResponse_error 9999 d), w')
    /\ let block_time := 30 in
       let count := live_count (clock w') (ledger_user w') "alice" in
       let remaining := Z.max 0 (5 - count) in
       (0 < block_time ->
          count = live_count (clock (after_failures 2)) (ledger_user (after_failures 2))
                    "alice" + 1)
       /\ (block_time <= 0 -> count = 0)
       /\ (0 < remaining ->
          d = IncorrectTryAgain remaining block_time
          /\ embeds (pretty remaining) (render d)
          /\ embeds (pretty block_time) (render d))
       /\ (remaining = 0 ->
          d = AccountLocked block_time /\ embeds (pretty block_time) (render d)).
Proof.
  eapply (@failed_login_answers_9999 collaborators on
            (login browser_headers "wrong") (after_failures 2) _ "alice" "wrong").
  - reflexivity.
  - do 3 eexists. split; reflexivity.
  - reflexivity.
  - reflexivity.
  - reflexivity.
Defined.

(** With a block time of zero the record of the failure has expired as
    soon as it is written: the count is stored as one and reads zero, and
    with a threshold of one the answer still offers one attempt. *)
Example zero_block_time_forgets_the_failure :
  let no_window :=
    {| SECURITY_REGISTER_ACCESS_ENABLED := true;
       SECURITY_REGISTER_TEMP_TOKEN_ENABLED := false;
       SECURITY_REGISTER_CAPTCHA_ENABLED := false;
       SECURITY_REGISTER_ENCRYPTED_ENABLED := false;
       SECURITY_LOGIN_ACCESS_ENABLED := true;
       SECURITY_LOGIN_TEMP_TOKEN_ENABLED := false;
       SECURITY_LOGIN_CAPTCHA_ENABLED := false;
       SECURITY_LOGIN_ENCRYPTED_ENABLED := false;
       SECURITY_LOGIN_LIMIT_TIME := 0;
       SECURITY_LOGIN_LIMIT_COUNT := 1;
       SECURITY_LOGIN_IP_LIMIT_COUNT := 10;
       SECURITY_LOGIN_IP_LIMIT_TIME := 60;
       ACCESS_TOKEN_LIFETIME := 3600;
       REFRESH_TOKEN_LIFETIME := 86400 |} in
  let run := @LoginView_post collaborators no_window (login browser_headers "wrong") fresh in
  fst run = Returned (ApiResponse_error 9999 (IncorrectTryAgain 1 0))
  /\ failed_count <$> ledger_user (snd run) !! "alice" = Some 1
  /\ live_count (clock (snd run)) (ledger_user (snd run)) "alice" = 0.
Proof. vm_compute. repeat split. Qed.

(** C4 as stated fails: a wrong password from a client that sends no
    User-Agent header fails credential verification and the view raises
    [KeyError]; no response with code 9999 is returned. *)
Lemma failed_login_without_user_agent_has_no_answer :
  let run := @LoginView_post collaborators on (login bare_headers "wrong") fresh in
  verified_user fresh "alice" "wrong" = None
  /\ fst run = Raised (KeyError "HTTP_USER_AGENT")
  /\ ~ (exists resp, fst run = Returned resp /\ code resp = Some 9999).
Proof.
  vm_compute. split; [reflexivity|]. split; [reflexivity|].
  intros (resp & Hrun & _). discriminate.
Qed.

(** *** C7 *)

(** C7 as stated fails: in a failed login the audit record is written
    (fifth event) before the failure is recorded in the ledger (sixth and
    seventh events). *)
Lemma failed_login_writes_audit_before_ledger :
  let run := @LoginView_post collaborators on (login browser_headers "wrong") fresh in
  let delta := [EvChallengeGate; EvCredentialDecode; EvBlockCheck; EvCredentialVerify false;
                EvAuditWrite false; EvLedgerFailure "alice"; EvLedgerIpFailure "1.2.3.4"] in
  events_of fresh (snd run) delta /\ ~ ledger_before_audit delta.
Proof.
  split; [reflexivity|].
  intros Horder.
  specialize (Horder 4%nat 5%nat (EvAuditWrite false) (EvLedgerFailure "alice")
                eq_refl eq_refl eq_refl eq_refl).
  lia.
Qed.

(** The same order in a successful login: the audit record, then the two
    resets. *)
Example verified_login_writes_audit_before_ledger :
  trace (snd (@LoginView_post collaborators on (login browser_headers "correct horse") fresh))
  = [EvChallengeGate; EvCredentialDecode; EvBlockCheck; EvCredentialVerify true;
     EvIssueTokens 1; EvAuditWrite true; EvLedgerClean "alice"; EvLedgerIpClean "1.2.3.4"].
Proof. reflexivity. Qed.

(** *** C8 *)

(** C8 at work: a login from a client that sends no User-Agent header. *)
Lemma audit_failure_witness :
  exists e,
    match META (login bare_headers "wrong") !! "HTTP_USER_AGENT" with
    | None => e = KeyError "HTTP_USER_AGENT"
    | Some _ => exists field, e = ValidationError field
    end
    /\ (forall login_type status w0,
          @save_login_log collaborators (login bare_headers "wrong") login_type status w0
          = (Raised e, w0))
    /\ exists w',
         @LoginView_post collaborators on (login bare_headers "wrong") fresh = (Raised e, w')
         /\ login_log w' = login_log fresh
         /\ ledger_user w' = ledger_user fresh
         /\ ledger_ip w' = ledger_ip fresh.
Proof.
  eapply (@audit_failure_fails_the_login collaborators on
            (login bare_headers "wrong") fresh _ "alice" "wrong").
  - reflexivity.
  - do 3 eexists. split; reflexivity.
  - reflexivity.
  - left. reflexivity.
Defined.

(** C8 as stated fails: with the User-Agent header missing the write
    raises [KeyError], which is not a validation error. *)
Lemma missing_user_agent_raises_key_error :
  @bad_audit_context collaborators (login bare_headers "wrong")
  /\ @save_login_log collaborators (login bare_headers "wrong") USERNAME false fresh
     = (Raised (KeyError "HTTP_USER_AGENT"), fresh)
  /\ ~ (exists field w',
          @save_login_log collaborators (login bare_headers "wrong") USERNAME false fresh
          = (Raised (ValidationError field), w')).
Proof.
  split; [left; reflexivity|]. split; [reflexivity|].
  intros (field & w' & Hrun). vm_compute in Hrun. discriminate.
Qed.

(** An address the serializer does not accept raises a validation
    error. *)
Example unparseable_address_raises_validation_error :
  @save_login_log collaborators
    (request [("HTTP_USER_AGENT", "Mozilla/5.0")] []) USERNAME true fresh
  = (Raised (ValidationError "ipaddress"), fresh).
Proof. reflexivity. Qed.

(** *** C9 *)

(** C9 at work: bob registers from a browser. *)
Lemma registration_witness :
  exists new_user w',
    @RegisterView_post collaborators on (signup browser_headers "bob" "longenough") fresh
      = (Returned (ApiResponse_data (issued_data on fresh new_user)), w')
    /\ username new_user = "bob" /\ password new_user = "longenough"
    /\ Forall (fun x => pk x <> pk new_user) (users fresh)
    /\ last_login new_user = Some (clock fresh)
    /\ users w' = users fresh ++ [new_user]
    /\ login_log w'
       = login_log fresh
         ++ [@audit_row collaborators
               (set_user (signup browser_headers "bob" "longenough") (Some new_user))
               USERNAME true]
    /\ events_of fresh w'
         [EvChallengeGate; EvCredentialDecode; EvCreateUser "bob";
          EvIssueTokens (pk new_user); EvSaveUser (pk new_user); EvAuditWrite true].
Proof.
  eapply (@registration_creates_user_and_logs_in collaborators on
            (signup browser_headers "bob" "longenough") fresh _ "bob" "longenough").
  - reflexivity.
  - do 3 eexists. split; reflexivity.
  - reflexivity.
  - reflexivity.
  - reflexivity.
Defined.

(** C9 as stated fails: the same registration from a client that sends no
    User-Agent header passes the four checks and creates bob, then
    [save_login_log] raises [KeyError]: no token pair is returned and no
    audit record is written. *)
Lemma registration_without_user_agent_writes_no_record :
  let request := signup bare_headers "bob" "longenough" in
  let run := @RegisterView_post collaborators on request fresh in
  SECURITY_REGISTER_ACCESS_ENABLED on = true
  /\ (exists w2, @passes_register_gates collaborators on request fresh "bob" "longenough" w2)
  /\ @check_password_rules collaborators "longenough" = true
  /\ username_taken fresh "bob" = false
  /\ fst run = Raised (KeyError "HTTP_USER_AGENT")
  /\ username <$> users (snd run) = ["alice"; "bob"]
  /\ login_log (snd run) = [].
Proof.
  split; [reflexivity|]. split; [do 4 eexists; split; reflexivity|].
  vm_compute. repeat split.
Qed.

(** *** C10 *)

(** C10 at work: bob registers with a password of five characters. *)
Lemma weak_password_witness :
  exists resp w',
    @RegisterView_post collaborators on (signup browser_headers "bob" "short") fresh
      = (Returned resp, w')
    /\ code resp = Some 1001
    /\ code resp = code (ApiResponse_error 1001 RegistrationForbidden)
    /\ (SECURITY_REGISTER_ACCESS_ENABLED on = true -> detail resp = Some PasswordNotMatchRules)
    /\ (SECURITY_REGISTER_ACCESS_ENABLED on = false -> detail resp = Some RegistrationForbidden).
Proof.
  eapply (@weak_password_answers_1001 collaborators on
            (signup browser_headers "bob" "short") fresh _ "bob" "short").
  - do 3 eexists. split; reflexivity.
  - reflexivity.
Defined.

End Examples.

(** ** More of the registration view *)

Section RegisterMore.
Context `{Collaborators}.
Variable settings : Settings.

(** The row a registration leaves for its new user. *)
Lemma registration_tail (request : Request) (w w2 : World) (u p : string) :
  SECURITY_REGISTER_ACCESS_ENABLED settings = true ->
  passes_register_gates settings request w u p w2 ->
  check_password_rules p = true ->
  username_taken w u = false ->
  exists new_user w',
    match audit_error request with
    | Some e =>
        RegisterView_post settings request w = (Raised e, w')
        /\ login_log w' = login_log w
    | None =>
        RegisterView_post settings request w
          = (Returned (ApiResponse_data (issued_data settings w new_user)), w')
        /\ login_log w'
           = login_log w ++ [audit_row (set_user request (Some new_user)) USERNAME true]
    end
    /\ username new_user = u /\ password new_user = p /\ is_active new_user = true
    /\ dept new_user = dept_code <$> bound_dept request w
    /\ dept_belong new_user = dept new_user
    /\ last_login new_user = Some (clock w)
    /\ users w' = users w ++ [new_user]
    /\ clock w' = clock w /\ depts w' = depts w
    /\ ledger_user w' = ledger_user w /\ ledger_ip w' = ledger_ip w
    /\ black_access w' = black_access w /\ black_refresh w' = black_refresh w.
Proof.
  intros Hen Hpass Hrules Hfree.
  destruct (passes_gates_frame _ _ _ _ _ _ _ _ Hpass) as [Hs He].
  destruct (audit_error request) as [e|] eqn:Haud.
  all: revert Haud; intros Haud.
  all: destruct Hpass as (cid & tok & w1 & Hg & Hd).
  all: unfold RegisterView_post; rewrite Hen; cbn [negb].
  all: bind_with Hg; bind_with Hd; cbn beta iota zeta; rewrite Hrules; cbn [negb].
  all: bind_get.
  all: assert (Hfree2 : username_taken w2 u = false)
    by (unfold username_taken in *; destruct Hs as (_&_&_&_&_&_&->&_); exact Hfree).
  all: fold (username_taken w2 u); rewrite Hfree2.
  all: bind_with authenticate_spec.
  all: rewrite (username_free_not_verified _ _ _ Hfree2).
  all: cbn beta iota zeta; unfold mbind at 1, M_bind at 1.
  all: bind_with create_user_spec; cbn beta iota zeta.
  all: destruct Hs as (Hc & Hlu & Hli & Hba & Hbr & Hj & Hus & Hde & Hl).
  all: unfold bound_dept, channel, bindable; rewrite <- Hde.
  all: destruct (String.eqb (default "default" (data request !! "channel")) ""); cbn [negb];
    [|bind_get; cbn [depts set_trace set_users];
      match goal with
      | |- context [match ?chosen with Some _ => mret (with_dept _ _, _) | None => _ end] =>
          destruct chosen as [d|]
      end];
    unfold mret at 1, M_ret at 1;
    bind_with for_user_spec; unfold issued_pair at 1;
    bind_get; bind_with save_spec; bind_with get_token_lifetime_spec;
    bind_with save_login_log_spec; rewrite audit_error_set_user, Haud;
    match goal with
    | |- context [EvSaveUser (pk ?usr)] => exists usr
    end;
    eexists;
    ((split;
      [split;
       [unfold mret, M_ret, issued_data, issued_pair; simpl; rewrite ?Hc, ?Hj; reflexivity
       |simpl; rewrite ?Hl; reflexivity]
      |simpl; rewrite ?Hc, ?Hlu, ?Hli, ?Hba, ?Hbr, fmap_app, save_row_others by reflexivity;
       unfold save_row; simpl; rewrite Z.eqb_refl, Hus; repeat split; reflexivity])).
Qed.


Lemma RegisterView_post_cases (request : Request) (w : World) :
  (SECURITY_REGISTER_ACCESS_ENABLED settings = false
   /\ RegisterView_post settings request w
      = (Returned (ApiResponse_error 1001 RegistrationForbidden), w))
  \/ (SECURITY_REGISTER_ACCESS_ENABLED settings = true
      /\ ((exists e w', RegisterView_post settings request w = (Raised e, w')
                        /\ same_store w w')
          \/ exists u p w2,
               passes_register_gates settings request w u p w2 /\ same_store w w2
               /\ ((check_password_rules p = false
                    /\ RegisterView_post settings request w
                       = (Returned (ApiResponse_error 1001 PasswordNotMatchRules), w2))
                   \/ (check_password_rules p = true /\ username_taken w u = true
                       /\ RegisterView_post settings request w
                          = (Returned (ApiResponse_error 1002 UsernameExists), w2))
                   \/ (check_password_rules p = true /\ username_taken w u = false)))).
Proof.
  destruct (SECURITY_REGISTER_ACCESS_ENABLED settings) eqn:Hen; [right|left].
  2: { split; [reflexivity|]. unfold RegisterView_post. rewrite Hen. reflexivity. }
  split; [reflexivity|].
  destruct (check_token_and_captcha request
              (SECURITY_REGISTER_TEMP_TOKEN_ENABLED settings)
              (SECURITY_REGISTER_CAPTCHA_ENABLED settings) w)
    as [[[cid tok]|e] w1] eqn:Hg.
  2: { left. exists e, w1. split.
       - unfold RegisterView_post. rewrite Hen. cbn [negb]. bind_with Hg. reflexivity.
       - by apply check_token_and_captcha_frame in Hg as [Hs _]. }
  destruct (get_username_password (SECURITY_REGISTER_ENCRYPTED_ENABLED settings)
              request tok w1) as [[[u p]|e] w2] eqn:Hd.
  2: { left. exists e, w2. split.
       - unfold RegisterView_post. rewrite Hen. cbn [negb].
         bind_with Hg. bind_with Hd. reflexivity.
       - apply check_token_and_captcha_frame in Hg as [Hs _].
         apply get_username_password_frame in Hd. subst w2. exact Hs. }
  right. exists u, p, w2.
  assert (Hpass : passes_register_gates settings request w u p w2)
    by (exists cid, tok, w1; split; assumption).
  destruct (passes_gates_frame _ _ _ _ _ _ _ _ Hpass) as [Hs _].
  split; [exact Hpass|]. split; [exact Hs|].
  destruct (check_password_rules p) eqn:Hrules; [right|left].
  2: { split; [reflexivity|]. unfold RegisterView_post. rewrite Hen. cbn [negb].
       bind_with Hg. bind_with Hd. cbn beta iota zeta. rewrite Hrules. reflexivity. }
  destruct (username_taken w u) eqn:Htaken; [left|right; split; reflexivity].
  split; [reflexivity|]. split; [reflexivity|].
  unfold RegisterView_post. rewrite Hen. cbn [negb].
  bind_with Hg. bind_with Hd. cbn beta iota zeta. rewrite Hrules. cbn [negb].
  bind_get. fold (username_taken w2 u).
  replace (username_taken w2 u) with true; [reflexivity|].
  rewrite <- Htaken. unfold username_taken.
  destruct Hs as (_&_&_&_&_&_&->&_). reflexivity.
Qed.

Lemma find_app_miss {A} (f : A -> bool) (l : list A) (x : A) :
  List.filter f l = [] -> f x = true -> List.find f (l ++ [x]) = Some x.
Proof.
  induction l as [|y l IH]; simpl; intros Hl Hx; [by rewrite Hx|].
  destruct (f y); [discriminate|]. by apply IH.
Qed.


(** X1.  A registration request that passes the challenge gate, the credential
    decoder and the password rules, and names a user that exists, is
    answered with code 1002; no user is created, no token is issued and no
    audit record is written: the request has performed the challenge and
    decoding steps and nothing else. *)
Theorem duplicate_username_answers_1002
    (request : Request) (w w2 : World) (u p : string) :
  SECURITY_REGISTER_ACCESS_ENABLED settings = true ->
  passes_register_gates settings request w u p w2 ->
  check_password_rules p = true ->
  username_taken w u = true ->
  RegisterView_post settings request w
    = (Returned (ApiResponse_error 1002 UsernameExists), w2)
  /\ same_store w w2
  /\ events_of w w2 [EvChallengeGate; EvCredentialDecode].
Proof.
  intros Hen Hpass Hrules Htaken.
  destruct (passes_gates_frame _ _ _ _ _ _ _ _ Hpass) as [Hs He].
  split; [|split; assumption].
  destruct Hpass as (cid & tok & w1 & Hg & Hd).
  unfold RegisterView_post. rewrite Hen. cbn [negb].
  bind_with Hg. bind_with Hd. cbn beta iota zeta. rewrite Hrules. cbn [negb].
  bind_get. fold (username_taken w2 u).
  replace (username_taken w2 u) with true; [reflexivity|].
  rewrite <- Htaken. unfold username_taken.
  destruct Hs as (_&_&_&_&_&_&->&_). reflexivity.
Qed.

(** X2.  Whenever [RegisterView.post] returns a response that carries a code,
    the code is 1001 or 1002, the response carries no tokens, and the
    users, the login log, the ledger and the blacklists are as they
    were. *)
Theorem rejected_registration_creates_nothing
    (request : Request) (w w' : World) (resp : ApiResponse) (c : Z) :
  RegisterView_post settings request w = (Returned resp, w') ->
  code resp = Some c ->
  (c = 1001 \/ c = 1002)
  /\ resp_data resp = None
  /\ same_store w w'.
Proof.
  intros Hrun Hcode.
  destruct (RegisterView_post_cases request w)
    as [[_ Hoff] | [Hen [(e & w1 & Hr & _) | (u & p & w2 & Hpass & Hs & Hcase)]]].
  - rewrite Hoff in Hrun. simplify_eq. simpl in *. simplify_eq.
    split; [by left|]. split; [reflexivity|]. repeat split.
  - rewrite Hr in Hrun. discriminate.
  - destruct Hcase as [[_ Hr] | [(_ & _ & Hr) | [Hrules Hfree]]].
    + rewrite Hr in Hrun. simplify_eq. simpl in *. simplify_eq. auto.
    + rewrite Hr in Hrun. simplify_eq. simpl in *. simplify_eq. auto.
    + destruct (registration_tail request w w2 u p Hen Hpass Hrules Hfree)
        as (new_user & w3 & Hr & _).
      destruct (audit_error request); destruct Hr as [Hr _];
        rewrite Hr in Hrun; simplify_eq; discriminate.
Qed.

(** X5.  [RegisterView.post] answers "Registration forbidden" exactly when the
    [access] entry of [RegisterView.get] is false, for every request and in
    every state. *)
Theorem registration_forbidden_iff_access_off {Rules : Type}
    (get_password_check_rules : option UserInfo -> Rules)
    (request probe : Request) (w : World) :
  (exists w', RegisterView_post settings request w
              = (Returned (ApiResponse_error 1001 RegistrationForbidden), w'))
  <-> register_access (RegisterView_get settings get_password_check_rules probe) = false.
Proof.
  simpl. split.
  - intros (w' & Hrun).
    destruct (RegisterView_post_cases request w)
      as [[Hoff _] | [Hen [(e & w1 & Hr & _) | (u & p & w2 & Hpass & Hs & Hcase)]]];
      [exact Hoff | rewrite Hr in Hrun; discriminate |].
    destruct Hcase as [[_ Hr] | [(_ & _ & Hr) | [Hrules Hfree]]];
      [rewrite Hr in Hrun; discriminate ..|].
    destruct (registration_tail request w w2 u p Hen Hpass Hrules Hfree)
      as (new_user & w3 & Hr & _).
    destruct (audit_error request); destruct Hr as [Hr _];
      rewrite Hr in Hrun; discriminate.
  - intros Hoff. exists w. unfold RegisterView_post. rewrite Hoff. reflexivity.
Qed.

(** X4.  A registration that passes every check but whose audit write raises
    leaves the new user in the table although the request has failed: the
    username is taken from then on, and the credentials of the request
    verify as that user. *)
Theorem failed_audit_leaves_user_registered
    (request : Request) (w w2 : World) (u p : string) (e : Exn) :
  SECURITY_REGISTER_ACCESS_ENABLED settings = true ->
  passes_register_gates settings request w u p w2 ->
  check_password_rules p = true ->
  username_taken w u = false ->
  audit_error request = Some e ->
  exists new_user w',
    RegisterView_post settings request w = (Raised e, w')
    /\ users w' = users w ++ [new_user]
    /\ username_taken w' u = true
    /\ verified_user w' u p = Some new_user
    /\ login_log w' = login_log w.
Proof.
  intros Hen Hpass Hrules Hfree Haud.
  destruct (registration_tail request w w2 u p Hen Hpass Hrules Hfree)
    as (new_user & w' & Hr & Hname & Hpw & Hact & _ & _ & _ & Hus & _).
  rewrite Haud in Hr. destruct Hr as [Hr Hlog].
  exists new_user, w'. split; [exact Hr|]. split; [exact Hus|].
  assert (Hnone : List.filter (has_username u) (users w) = []).
  { unfold username_taken in Hfree.
    destruct (List.filter (has_username u) (users w)); [reflexivity|discriminate]. }
  split; [|split; [|exact Hlog]].
  - unfold username_taken. rewrite Hus, List.filter_app, Hnone. simpl.
    unfold has_username. rewrite Hname, String.eqb_refl. reflexivity.
  - unfold verified_user. rewrite Hus.
    apply find_app_miss.
    + clear -Hnone. unfold has_username in Hnone.
      induction (users w) as [|x l IH]; simpl in *; [reflexivity|].
      destruct (String.eqb (username x) u); simpl; [discriminate|by apply IH].
    + rewrite Hname, Hpw, Hact, !String.eqb_refl. reflexivity.
Qed.

Lemma find_bindable (f : DeptInfo -> bool) (l : list DeptInfo) (d : DeptInfo) :
  List.find f l = Some d -> In d l /\ f d = true.
Proof. apply List.find_some. Qed.

(** X3.  The row of a newly registered user is the last of the user table.  Its
    [dept] and [dept_belong] agree; a department it is bound to is in the
    table of departments, active and open to automatic binding; an empty
    channel binds none; a non-empty channel binds one whenever some
    department is bindable, and the one of that code when a bindable
    department has the code of the channel. *)
Theorem registration_binds_bindable_department
    (request : Request) (w w2 : World) (u p : string) :
  SECURITY_REGISTER_ACCESS_ENABLED settings = true ->
  passes_register_gates settings request w u p w2 ->
  check_password_rules p = true ->
  username_taken w u = false ->
  exists new_user,
    last (users (snd (RegisterView_post settings request w))) = Some new_user
    /\ username new_user = u
    /\ dept_belong new_user = dept new_user
    /\ (forall c, dept new_user = Some c ->
          exists d, In d (depts w) /\ dept_code d = c
                    /\ dept_is_active d = true /\ auto_bind d = true)
    /\ (channel request = "" -> dept new_user = None)
    /\ (channel request <> "" ->
        (exists d, In d (depts w) /\ bindable d = true) -> is_Some (dept new_user))
    /\ (channel request <> "" ->
        (exists d, In d (depts w) /\ bindable d = true
                   /\ dept_code d = channel request) ->
        dept new_user = Some (channel request)).
Proof.
  intros Hen Hpass Hrules Hfree.
  destruct (registration_tail request w w2 u p Hen Hpass Hrules Hfree)
    as (new_user & w' & Hr & Hname & _ & _ & Hdept & Hbel & _ & Hus & _).
  exists new_user.
  assert (Hw' : snd (RegisterView_post settings request w) = w')
    by (destruct (audit_error request); destruct Hr as [-> _]; reflexivity).
  rewrite Hw', Hus, last_snoc.
  split; [reflexivity|]. split; [exact Hname|]. split; [exact Hbel|].
  rewrite Hdept. unfold bound_dept.
  destruct (String.eqb_spec (channel request) "") as [Hch|Hch].
  { repeat split; try tauto; intros; discriminate. }
  destruct (List.find (fun d => bindable d && String.eqb (dept_code d) (channel request))
              (depts w)) as [d|] eqn:Hfirst.
  - apply List.find_some in Hfirst as [Hin Hd].
    apply andb_prop in Hd as [Hb Hc]. apply String.eqb_eq in Hc.
    apply andb_prop in Hb as Hb2. destruct Hb2 as [Ha Hab].
    simpl. repeat split; try tauto; eauto.
    + intros c [= <-]. eauto 10.
    + intros _ _. by rewrite Hc.
  - destruct (List.find bindable (depts w)) as [d|] eqn:Hany.
    + apply List.find_some in Hany as [Hin Hb].
      apply andb_prop in Hb as Hb2. destruct Hb2 as [Ha Hab].
      simpl. repeat split; try tauto; eauto.
      * intros c [= <-]. eauto 10.
      * intros _ (d' & Hin' & Hb' & Hc').
        pose proof (List.find_none _ _ Hfirst d' Hin') as Hno. simpl in Hno.
        rewrite Hb', Hc', String.eqb_refl in Hno. discriminate.
    + simpl. repeat split; try tauto.
      * intros c [=].
      * intros _ (d' & Hin' & Hb').
        pose proof (List.find_none _ _ Hany d' Hin') as Hno. congruence.
      * intros _ (d' & Hin' & Hb' & _).
        pose proof (List.find_none _ _ Hany d' Hin') as Hno. congruence.
Qed.

End RegisterMore.


(** ** More of the login view *)

Ltac open_run Hr :=
  lazymatch type of Hr with
  | ex _ => let d := fresh "d" in destruct Hr as [d Hr]
  | _ => idtac
  end.

Section LoginMore.
Context `{Collaborators}.
Variable settings : Settings.

(** What a login that has reached credential verification does, by the
    outcome of the verification and of the audit write. *)
Lemma login_tail (request : Request) (w w2 : World) (u p : string) :
  SECURITY_LOGIN_ACCESS_ENABLED settings = true ->
  passes_login_gates settings request w u p w2 ->
  blocked w u (get_request_ip (META request)) = false ->
  exists w',
    users w' = users w
    /\ match audit_error request, verified_user w u p with
       | Some e, _ =>
           LoginView_post settings request w = (Raised e, w')
           /\ login_log w' = login_log w
       | None, None =>
           (exists d, LoginView_post settings request w
                      = (Returned (ApiResponse_error 9999 d), w'))
           /\ login_log w'
              = login_log w
                ++ [audit_row (set_user request (attributed_user request w)) USERNAME false]
       | None, Some usr =>
           LoginView_post settings request w
             = (Returned (ApiResponse_data (issued_data settings w usr)), w')
           /\ login_log w'
              = login_log w ++ [audit_row (set_user request (Some usr)) USERNAME true]
       end.
Proof.
  intros Hen Hpass Hblk.
  destruct (audit_error request) as [e|] eqn:Haud;
    destruct (verified_user w u p) as [usr|] eqn:Hver.
  all: login_prefix Hen Hpass Hblk Hs He; rewrite Hver.
  all: destruct Hs as (Hc & _ & _ & _ & _ & Hj & Hus & _ & Hl).
  - unfold issued_pair at 1. bind_with get_token_lifetime_spec.
    bind_with save_login_log_spec. rewrite audit_error_set_user, Haud.
    eexists. split; [|split; [reflexivity|]]; simpl; auto.
  - bind_get. bind_with save_login_log_spec. rewrite audit_error_set_user, Haud.
    eexists. split; [|split; [reflexivity|]]; simpl; auto.
  - unfold issued_pair at 1. bind_with get_token_lifetime_spec.
    bind_with save_login_log_spec. rewrite audit_error_set_user, Haud.
    bind_with clean_failed_count_spec. bind_with clean_block_if_need_spec.
    eexists. split; [|split]; cycle 1.
    + unfold mret, M_ret, issued_data, issued_pair. simpl. rewrite Hc, Hj. reflexivity.
    + simpl. rewrite Hl. reflexivity.
    + simpl. exact Hus.
  - bind_get. bind_with save_login_log_spec. rewrite audit_error_set_user, Haud.
    bind_with incr_failed_count_spec. bind_with set_block_if_need_spec.
    bind_with get_remainder_times_spec.
    eexists. split; [|split]; cycle 1.
    + eexists. reflexivity.
    + simpl. unfold attributed_user. rewrite Hl, Hus. reflexivity.
    + simpl. exact Hus.
Qed.

Lemma LoginView_post_cases (request : Request) (w : World) :
  (SECURITY_LOGIN_ACCESS_ENABLED settings = false
   /\ LoginView_post settings request w
      = (Returned (ApiResponse_error 1001 LoginForbidden), w))
  \/ (SECURITY_LOGIN_ACCESS_ENABLED settings = true
      /\ ((exists e w', LoginView_post settings request w = (Raised e, w')
                        /\ same_store w w')
          \/ exists u p w2,
               passes_login_gates settings request w u p w2
               /\ blocked w u (get_request_ip (META request)) = false)).
Proof.
  destruct (SECURITY_LOGIN_ACCESS_ENABLED settings) eqn:Hen; [right|left].
  2: { split; [reflexivity|]. unfold LoginView_post. rewrite Hen. reflexivity. }
  split; [reflexivity|].
  destruct (check_token_and_captcha request
              (SECURITY_LOGIN_TEMP_TOKEN_ENABLED settings)
              (SECURITY_LOGIN_CAPTCHA_ENABLED settings) w)
    as [[[cid tok]|e] w1] eqn:Hg.
  2: { left. exists e, w1. split.
       - unfold LoginView_post. rewrite Hen. cbn [negb]. bind_with Hg. reflexivity.
       - by apply check_token_and_captcha_frame in Hg as [Hs _]. }
  destruct (get_username_password (SECURITY_LOGIN_ENCRYPTED_ENABLED settings)
              request tok w1) as [[[u p]|e] w2] eqn:Hd.
  2: { left. exists e, w2. split.
       - unfold LoginView_post. rewrite Hen. cbn [negb].
         bind_with Hg. bind_with Hd. reflexivity.
       - apply check_token_and_captcha_frame in Hg as [Hs _].
         apply get_username_password_frame in Hd. subst w2. exact Hs. }
  assert (Hpass : passes_login_gates settings request w u p w2)
    by (exists cid, tok, w1; split; assumption).
  destruct (blocked w u (get_request_ip (META request))) eqn:Hblk.
  - left. destruct (passes_gates_frame _ _ _ _ _ _ _ _ Hpass) as [Hs _].
    exists (AccountLockedError (SECURITY_LOGIN_LIMIT_TIME settings)),
      (set_trace (trace w2 ++ [EvBlockCheck]) w2).
    split; [|exact Hs].
    unfold LoginView_post. rewrite Hen. cbn [negb].
    bind_with Hg. bind_with Hd. bind_with check_is_block_spec.
    rewrite (blocked_same_store _ _ _ _ Hs), Hblk. reflexivity.
  - right. exists u, p, w2. split; assumption.
Qed.

(** X6.  [LoginView.post] answers "Login forbidden" exactly when the [access]
    entry of [LoginView.get] is false, for every request and in every
    state. *)
Theorem login_forbidden_iff_access_off (reset : bool) (request : Request) (w : World) :
  (exists w', LoginView_post settings request w
              = (Returned (ApiResponse_error 1001 LoginForbidden), w'))
  <-> login_access (LoginView_get settings reset) = false.
Proof.
  simpl. split.
  - intros (w' & Hrun).
    destruct (LoginView_post_cases request w)
      as [[Hoff _] | [Hen [(e & w1 & Hr & _) | (u & p & w2 & Hpass & Hblk)]]];
      [exact Hoff | rewrite Hr in Hrun; discriminate |].
    destruct (login_tail request w w2 u p Hen Hpass Hblk) as (w3 & _ & Hr).
    destruct (audit_error request), (verified_user w u p);
      destruct Hr as [Hr _]; open_run Hr;
      rewrite Hr in Hrun; discriminate.
  - intros Hoff. exists w. unfold LoginView_post. rewrite Hoff. reflexivity.
Qed.

(** X7.  A response of [LoginView.post] carries tokens only if the request
    passed the challenge gate and the decoder, neither the username nor
    the address was blocked, and the decoded credentials verify as an
    active user; both tokens are issued to that user, and the login log
    has gained one success record attributed to that user. *)
Theorem tokens_only_for_verified_credentials
    (request : Request) (w w' : World) (resp : ApiResponse) (tokens : TokenData) :
  LoginView_post settings request w = (Returned resp, w') ->
  resp_data resp = Some tokens ->
  exists u p w2 usr,
    passes_login_gates settings request w u p w2
    /\ blocked w u (get_request_ip (META request)) = false
    /\ verified_user w u p = Some usr
    /\ tokens = issued_data settings w usr
    /\ token_user_id (access tokens) = pk usr
    /\ token_user_id (refresh tokens) = pk usr
    /\ login_log w'
       = login_log w ++ [audit_row (set_user request (Some usr)) USERNAME true].
Proof.
  intros Hrun Hdata.
  destruct (LoginView_post_cases request w)
    as [[_ Hoff] | [Hen [(e & w1 & Hr & _) | (u & p & w2 & Hpass & Hblk)]]].
  - rewrite Hoff in Hrun. simplify_eq; try discriminate.
  - rewrite Hr in Hrun. discriminate.
  - destruct (login_tail request w w2 u p Hen Hpass Hblk) as (w3 & _ & Hr).
    destruct (audit_error request), (verified_user w u p) as [usr|] eqn:Hver;
      destruct Hr as [Hr Hlog]; open_run Hr;
      rewrite Hr in Hrun; simplify_eq; try discriminate.
    simpl in Hdata. simplify_eq.
    exists u, p, w2, usr. repeat split; assumption.
Qed.

(** X8.  A login request appends at most one record to the login log and alters
    none.  A record it appends has the login type [USERNAME]; its status is
    true exactly when the response carries tokens, and false exactly when
    the response has code 9999. *)
Theorem login_writes_at_most_one_audit_row (request : Request) (w : World) :
  let run := LoginView_post settings request w in
  login_log (snd run) = login_log w
  \/ exists row,
       login_log (snd run) = login_log w ++ [row]
       /\ log_login_type row = USERNAME
       /\ (log_status row = true <-> exists tokens, fst run = Returned (ApiResponse_data tokens))
       /\ (log_status row = false
           <-> exists d, fst run = Returned (ApiResponse_error 9999 d)).
Proof.
  cbn zeta.
  destruct (LoginView_post_cases request w)
    as [[_ Hoff] | [Hen [(e & w1 & Hr & Hs) | (u & p & w2 & Hpass & Hblk)]]].
  - rewrite Hoff. by left.
  - rewrite Hr. left. simpl. by destruct Hs as (_&_&_&_&_&_&_&_&->).
  - destruct (login_tail request w w2 u p Hen Hpass Hblk) as (w3 & _ & Hr).
    destruct (audit_error request), (verified_user w u p) as [usr|];
      destruct Hr as [Hr Hlog]; open_run Hr; rewrite Hr; simpl.
    + by left.
    + by left.
    + right. eexists. split; [exact Hlog|]. simpl.
      split; [reflexivity|]. split; split; eauto; try discriminate.
      intros (d & Hd). discriminate.
    + right. eexists. split; [exact Hlog|]. simpl.
      split; [reflexivity|]. split; split; eauto; try discriminate.
      intros (t & Ht). discriminate.
Qed.

(** X9.  The audit record of a failed login is attributed to the user named by
    the [username] field of the body as sent, not by the decoded
    username: to nobody when the body has no such field or the field names
    no user. *)
Theorem failed_login_is_attributed_by_the_raw_username
    (request : Request) (w w2 : World) (u p : string) :
  SECURITY_LOGIN_ACCESS_ENABLED settings = true ->
  passes_login_gates settings request w u p w2 ->
  blocked w u (get_request_ip (META request)) = false ->
  verified_user w u p = None ->
  audit_error request = None ->
  exists row,
    login_log (snd (LoginView_post settings request w)) = login_log w ++ [row]
    /\ log_status row = false
    /\ log_creator row = pk <$> attributed_user request w
    /\ (data request !! "username" = None -> log_creator row = None)
    /\ (forall name, data request !! "username" = Some name ->
          username_taken w name = false -> log_creator row = None).
Proof.
  intros Hen Hpass Hblk Hver Haud.
  destruct (login_tail request w w2 u p Hen Hpass Hblk) as (w3 & _ & Hr).
  rewrite Haud, Hver in Hr. destruct Hr as [[d Hr] Hlog].
  rewrite Hr. simpl. eexists. split; [exact Hlog|]. simpl.
  split; [reflexivity|]. split; [reflexivity|].
  unfold attributed_user. split.
  - intros ->. reflexivity.
  - intros name -> Hfree. simpl.
    replace (find (has_username name) (users w)) with (@None UserInfo); [reflexivity|].
    symmetry. unfold username_taken in Hfree.
    induction (users w) as [|x l IH]; simpl in *; [reflexivity|].
    destruct (has_username name x); [discriminate|by apply IH].
Qed.

(** X10.  The [lifetime] entry of [LoginView.get] is the lifetime of the refresh
    tokens [RefreshToken.for_user] issues, in whole days rounded down: a
    refresh token expires at least that many days after it is issued, and
    less than one day later than that. *)
Theorem login_lifetime_is_whole_days (reset : bool) (usr : UserInfo) (w : World) :
  let days := login_lifetime (LoginView_get settings reset) in
  exists refresh access w',
    RefreshToken_for_user settings usr w = (Returned (refresh, access), w')
    /\ clock w + 86400 * days <= token_exp refresh < clock w + 86400 * (days + 1).
Proof.
  cbn zeta. rewrite for_user_spec. unfold issued_pair. do 3 eexists.
  split; [reflexivity|]. simpl.
  pose proof (Z.div_mod (REFRESH_TOKEN_LIFETIME settings) 86400 ltac:(lia)).
  pose proof (Z.mod_pos_bound (REFRESH_TOKEN_LIFETIME settings) 86400 ltac:(lia)).
  lia.
Qed.

End LoginMore.

(** ** More of the logout view, and the refresh view *)

(** [RefreshToken] accepts exactly the refresh tokens that have not
    expired and are not blacklisted, and writes nothing. *)
Lemma RefreshToken_accepts (raw : RawToken) (w : World) (t : Token) (w' : World) :
  (RefreshToken raw w = (Returned t, w')) <->
  (raw = Signed t /\ token_type t = RefreshType /\ clock w < token_exp t
   /\ (token_jti t ∉ black_refresh w) /\ w' = w).
Proof.
  unfold RefreshToken. steps.
  destruct raw as [t0|s]; [|split; [discriminate | intros [? _]; discriminate]].
  destruct (token_type t0) eqn:Hty.
  { split; [discriminate|]. intros ([= <-] & Hty' & _). congruence. }
  destruct (Z.leb_spec (token_exp t0) (clock w)).
  { split; [discriminate|]. intros ([= <-] & _ & Hexp & _). lia. }
  case_bool_decide.
  { split; [discriminate|]. intros ([= <-] & _ & _ & Hnot & _). contradiction. }
  split.
  - intros [= <- <-]. repeat split; auto.
  - intros ([= <-] & _ & _ & _ & ->). reflexivity.
Qed.

Lemma RefreshToken_total (raw : RawToken) (w : World) :
  (exists t, RefreshToken raw w = (Returned t, w))
  \/ (exists e, RefreshToken raw w = (Raised e, w)).
Proof.
  unfold RefreshToken. steps.
  destruct raw as [t0|s]; [|eauto].
  destruct (token_type t0); [eauto|].
  destruct (token_exp t0 <=? clock w); [eauto|].
  case_bool_decide; eauto.
Qed.

Section LogoutMore.
Context `{Collaborators}.
Variable settings : Settings.

(** The whole effect of a logout on the world. *)
Lemma LogoutView_post_run (request : Request) (auth : AccessAuth) (w : World) :
  exists w',
    LogoutView_post request auth w = (Returned ApiResponse_empty, w')
    /\ clock w' = clock w /\ users w' = users w /\ depts w' = depts w
    /\ login_log w' = login_log w /\ next_jti w' = next_jti w
    /\ ledger_user w' = ledger_user w /\ ledger_ip w' = ledger_ip w
    /\ temp_tokens w' = temp_tokens w /\ captchas w' = captchas w
    /\ black_access w'
       = <[(payload_user_id auth, md5_hexdigest (auth_token auth)) :=
             {| entry_value := 1;
                entry_ttl := payload_exp auth - clock w;
                entry_expiry := payload_exp auth |}]> (black_access w)
    /\ black_refresh w'
       = match refresh_field request with
         | Some raw =>
             match fst (RefreshToken raw w) with
             | Returned t => {[token_jti t]} ∪ black_refresh w
             | Raised _ => black_refresh w
             end
         | None => black_refresh w
         end.
Proof.
  unfold LogoutView_post. bind_get. bind_with set_storage_cache_spec.
  cbn beta iota zeta.
  replace (clock w + (payload_exp auth - clock w)) with (payload_exp auth) by lia.
  destruct (refresh_field request) as [raw|];
    [|eexists; split; [reflexivity|]; simpl; repeat split; reflexivity].
  unfold RefreshToken, try_except, blacklist. steps.
  destruct raw as [t0|s]; [|eexists; split; [reflexivity|]; simpl; repeat split; reflexivity].
  destruct (token_type t0);
    [eexists; split; [reflexivity|]; simpl; repeat split; reflexivity|].
  destruct (token_exp t0 <=? clock w);
    [eexists; split; [reflexivity|]; simpl; repeat split; reflexivity|].
  case_bool_decide; eexists; (split; [reflexivity|]); simpl; repeat split; reflexivity.
Qed.

(** X11.  A logout leaves the users, the login log, the block ledger, the
    challenge stores and the token counter as they were, and removes
    nothing from either blacklist. *)
Theorem logout_touches_only_the_blacklists
    (request : Request) (auth : AccessAuth) (w : World) :
  let w' := snd (LogoutView_post request auth w) in
  users w' = users w /\ login_log w' = login_log w
  /\ ledger_user w' = ledger_user w /\ ledger_ip w' = ledger_ip w
  /\ temp_tokens w' = temp_tokens w /\ captchas w' = captchas w
  /\ next_jti w' = next_jti w
  /\ black_refresh w ⊆ black_refresh w'
  /\ dom (black_access w) ⊆ dom (black_access w').
Proof.
  destruct (LogoutView_post_run request auth w)
    as (w' & Hrun & _ & Hu & _ & Hl & Hj & Hlu & Hli & Ht & Hc & Hba & Hbr).
  rewrite Hrun. simpl. repeat split; try assumption.
  - rewrite Hbr. destruct (refresh_field request) as [raw|]; [|done].
    destruct (fst (RefreshToken raw w)); set_solver.
  - rewrite Hba, dom_insert_L. set_solver.
Qed.

(** X12.  Logging out again with the same access token, at whatever time, adds
    no second entry to the access blacklist: the keys and the size of the
    blacklist stay, the entry of the token still expires at [exp], and the
    entries of other tokens are untouched. *)
Theorem logout_again_keeps_one_entry
    (request1 request2 : Request) (auth : AccessAuth) (w : World) (t : Z) :
  let key := (payload_user_id auth, md5_hexdigest (auth_token auth)) in
  let w1 := snd (LogoutView_post request1 auth w) in
  let w2 := snd (LogoutView_post request2 auth (set_clock t w1)) in
  dom (black_access w2) = dom (black_access w1)
  /\ size (black_access w2) = size (black_access w1)
  /\ black_access w2 !! key
     = Some {| entry_value := 1; entry_ttl := payload_exp auth - t;
               entry_expiry := payload_exp auth |}
  /\ forall other, other <> key -> black_access w2 !! other = black_access w !! other.
Proof.
  cbn zeta.
  destruct (LogoutView_post_run request1 auth w) as (w1 & Hrun1 & Hrest1).
  rewrite Hrun1. simpl.
  destruct (LogoutView_post_run request2 auth (set_clock t w1)) as (w2 & Hrun2 & Hrest2).
  rewrite Hrun2. simpl.
  destruct Hrest1 as (_&_&_&_&_&_&_&_&_& Hb1 & _).
  destruct Hrest2 as (_&_&_&_&_&_&_&_&_& Hb2 & _).
  simpl in Hb2. rewrite Hb2, Hb1.
  assert (Hdom : dom (<[(payload_user_id auth, md5_hexdigest (auth_token auth)) :=
             {| entry_value := 1; entry_ttl := payload_exp auth - t;
                entry_expiry := payload_exp auth |}]>
            (<[(payload_user_id auth, md5_hexdigest (auth_token auth)) :=
             {| entry_value := 1; entry_ttl := payload_exp auth - clock w;
                entry_expiry := payload_exp auth |}]> (black_access w)))
          = dom (<[(payload_user_id auth, md5_hexdigest (auth_token auth)) :=
             {| entry_value := 1; entry_ttl := payload_exp auth - clock w;
                entry_expiry := payload_exp auth |}]> (black_access w)))
    by (rewrite !dom_insert_L; set_solver).
  split; [exact Hdom|]. split.
  - rewrite <- !size_dom, Hdom. reflexivity.
  - split; [apply lookup_insert_eq|].
    intros other Hne. rewrite !lookup_insert_ne by congruence. reflexivity.
Qed.

(** X13.  A logout with a valid refresh token puts the token on the refresh
    blacklist; from then on [RefreshToken] rejects it as blacklisted, and
    a second logout with the same token still answers [ApiResponse()] and
    leaves the refresh blacklist as it is. *)
Theorem second_logout_swallows_the_revoked_refresh_token
    (request : Request) (auth : AccessAuth) (w : World) (t : Token) :
  refresh_field request = Some (Signed t) ->
  token_type t = RefreshType ->
  clock w < token_exp t ->
  token_jti t ∉ black_refresh w ->
  let w1 := snd (LogoutView_post request auth w) in
  black_refresh w1 = {[token_jti t]} ∪ black_refresh w
  /\ RefreshToken (Signed t) w1 = (Raised (TokenError "Token is blacklisted"), w1)
  /\ fst (LogoutView_post request auth w1) = Returned ApiResponse_empty
  /\ black_refresh (snd (LogoutView_post request auth w1)) = black_refresh w1.
Proof.
  intros Hfield Hty Hexp Hnew. cbn zeta.
  destruct (LogoutView_post_run request auth w) as (w1 & Hrun1 & Hc & Hrest1).
  rewrite Hrun1. simpl.
  destruct Hrest1 as (_&_&_&_&_&_&_&_&_& Hbr).
  rewrite Hfield in Hbr.
  assert (Hok : RefreshToken (Signed t) w = (Returned t, w))
    by (apply RefreshToken_accepts; auto).
  rewrite Hok in Hbr. simpl in Hbr.
  assert (Hbad : RefreshToken (Signed t) w1
                 = (Raised (TokenError "Token is blacklisted"), w1)).
  { unfold RefreshToken. steps. rewrite Hty, Hc.
    destruct (Z.leb_spec (token_exp t) (clock w)); [lia|].
    rewrite Hbr. case_bool_decide; [reflexivity|set_solver]. }
  split; [exact Hbr|]. split; [exact Hbad|].
  destruct (LogoutView_post_run request auth w1) as (w2 & Hrun2 & Hrest2).
  rewrite Hrun2. simpl. split; [reflexivity|].
  destruct Hrest2 as (_&_&_&_&_&_&_&_&_&_& Hbr2).
  rewrite Hfield, Hbad in Hbr2. exact Hbr2.
Qed.

(** X14.  Whatever was submitted as refresh token at a logout cannot be used at
    [RefreshTokenView.post] from then on: the view raises, issues no
    access token and changes nothing. *)
Theorem revoked_refresh_token_cannot_refresh
    (request1 request2 : Request) (auth : AccessAuth) (request_user : UserInfo)
    (w : World) (raw : RawToken) (t : Z) :
  refresh_field request1 = Some raw ->
  refresh_field request2 = Some raw ->
  clock w <= t ->
  let w1 := set_clock t (snd (LogoutView_post request1 auth w)) in
  RefreshTokenView_post settings request2 request_user w1
  = (Raised AuthenticationFailed, w1).
Proof.
  intros Hf1 Hf2 Ht. cbn zeta.
  destruct (LogoutView_post_run request1 auth w) as (w1 & Hrun1 & Hc & Hrest1).
  rewrite Hrun1. simpl.
  destruct Hrest1 as (_&_&_&_&_&_&_&_&_& Hbr).
  rewrite Hf1 in Hbr.
  unfold RefreshTokenView_post, TokenRefreshView_post. rewrite Hf2.
  unfold mbind at 1, M_bind at 1. unfold mbind at 1, M_bind at 1.
  unfold try_except.
  assert (Hbad : exists e, RefreshToken raw (set_clock t w1) = (Raised e, set_clock t w1)).
  { destruct (RefreshToken_total raw (set_clock t w1)) as [[t0 Hok]|Hbad]; [|exact Hbad].
    exfalso. apply RefreshToken_accepts in Hok as (-> & Hty & Hexp & Hnot & _).
    simpl in Hexp, Hnot.
    destruct (RefreshToken_total (Signed t0) w) as [[t1 Hok]|[e Hno]].
    - rewrite Hok in Hbr. simpl in Hbr.
      apply RefreshToken_accepts in Hok as ([= <-] & _). set_solver.
    - assert (Hyes : RefreshToken (Signed t0) w = (Returned t0, w)).
      { apply RefreshToken_accepts. repeat split; auto; [lia|].
        rewrite Hno in Hbr. simpl in Hbr. by rewrite <- Hbr. }
      congruence. }
  destruct Hbad as [e ->]. reflexivity.
Qed.

End LogoutMore.

(** ** The worker signals *)

Lemma start_task_frame (w : Worker) (task : string) :
  worker_clock (start_task w task) = worker_clock w
  /\ worker_cache (start_task w task) = worker_cache w
  /\ PeriodicTask_objects (start_task w task) = PeriodicTask_objects w
  /\ after_app_ready_tasks (start_task w task) = after_app_ready_tasks w
  /\ delayed (start_task w task)
     = delayed w ++ (if startable w task then [task] else []).
Proof.
  unfold start_task, startable.
  destruct (find _ (PeriodicTask_objects w)) as [pt|]; [|simpl; auto].
  destruct (periodic_enabled pt); simpl; rewrite ?app_nil_r; auto.
Qed.

Lemma startable_ext (w w' : Worker) (task : string) :
  PeriodicTask_objects w' = PeriodicTask_objects w -> startable w' task = startable w task.
Proof. unfold startable. by intros ->. Qed.

Lemma start_tasks_frame (tasks : list string) (w : Worker) :
  worker_clock (foldl start_task w tasks) = worker_clock w
  /\ worker_cache (foldl start_task w tasks) = worker_cache w
  /\ PeriodicTask_objects (foldl start_task w tasks) = PeriodicTask_objects w
  /\ after_app_ready_tasks (foldl start_task w tasks) = after_app_ready_tasks w
  /\ delayed (foldl start_task w tasks) = delayed w ++ List.filter (startable w) tasks.
Proof.
  revert w. induction tasks as [|task tasks IH]; intros w; simpl.
  - by rewrite app_nil_r.
  - destruct (IH (start_task w task)) as (Hc & Hk & Hp & Ha & Hd).
    destruct (start_task_frame w task) as (Hc1 & Hk1 & Hp1 & Ha1 & Hd1).
    rewrite Hc, Hk, Hp, Ha, Hd, Hc1, Hk1, Hp1, Ha1, Hd1.
    repeat split; try reflexivity.
    rewrite <- app_assoc. f_equal.
    rewrite (List.filter_ext _ (startable w)) by (intros; by apply startable_ext).
    by destruct (startable w task).
Qed.

Lemma on_app_ready_run (w : Worker) :
  cache_get "CELERY_APP_READY" 0 w <> 1 ->
  worker_clock (on_app_ready w) = worker_clock w
  /\ worker_cache (on_app_ready w)
     = <["CELERY_APP_READY" := {| cached := 1; cached_until := worker_clock w + 10 |}]>
         (worker_cache w)
  /\ PeriodicTask_objects (on_app_ready w) = PeriodicTask_objects w
  /\ after_app_ready_tasks (on_app_ready w) = after_app_ready_tasks w
  /\ delayed (on_app_ready w)
     = delayed w ++ List.filter (startable w) (after_app_ready_tasks w).
Proof.
  intros Hrun. unfold on_app_ready.
  destruct (Z.eqb_spec (cache_get "CELERY_APP_READY" 0 w) 1); [contradiction|].
  cbn zeta.
  match goal with |- context [foldl start_task ?w0 ?l] =>
    destruct (start_tasks_frame l w0) as (Hc & Hk & Hp & Ha & Hd) end.
  rewrite Hc, Hk, Hp, Ha, Hd. simpl. repeat split; reflexivity.
Qed.

Lemma cache_get_fresh (key : string) (default value timeout dt : Z)
    (w w' : Worker) :
  worker_cache w' = <[key := {| cached := value;
                                cached_until := worker_clock w + timeout |}]> (worker_cache w) ->
  worker_clock w' = worker_clock w + dt ->
  cache_get key default w' = if dt <? timeout then value else default.
Proof.
  intros Hk Hc. unfold cache_get. rewrite Hk, lookup_insert_eq, Hc. simpl.
  destruct (Z.ltb_spec dt timeout), (Z.ltb_spec (worker_clock w + dt) (worker_clock w + timeout));
    (reflexivity || lia).
Qed.

(** X15.  When the ready flag is not set, [on_app_ready] sends to the queue, in
    the order of the registry, exactly the registered tasks whose first
    periodic task, if there is one, is enabled; the table of periodic tasks
    is left as it is. *)
Theorem on_app_ready_starts_the_enabled_tasks (w : Worker) :
  cache_get "CELERY_APP_READY" 0 w <> 1 ->
  delayed (on_app_ready w)
  = delayed w ++ List.filter (startable w) (after_app_ready_tasks w)
  /\ (forall task, In task (List.filter (startable w) (after_app_ready_tasks w)) ->
        forall pt, List.find (fun pt => String.eqb (periodic_task pt) task)
                             (PeriodicTask_objects w) = Some pt ->
                   periodic_enabled pt = true)
  /\ PeriodicTask_objects (on_app_ready w) = PeriodicTask_objects w.
Proof.
  intros Hrun. destruct (on_app_ready_run w Hrun) as (_ & _ & Hp & _ & Hd).
  split; [exact Hd|]. split; [|exact Hp].
  intros task Hin pt Hpt. apply List.filter_In in Hin as [_ Hs].
  unfold startable in Hs. by rewrite Hpt in Hs.
Qed.

(** X16.  After [on_app_ready] has run, a further ready signal within the next
    10 seconds changes nothing at all; from 10 seconds on it starts the
    same tasks again. *)
Theorem on_app_ready_runs_once_in_ten_seconds (w : Worker) (dt : Z) :
  cache_get "CELERY_APP_READY" 0 w <> 1 ->
  0 <= dt ->
  let again := on_app_ready (later dt (on_app_ready w)) in
  (dt < 10 -> again = later dt (on_app_ready w))
  /\ (10 <= dt ->
      delayed again
      = delayed (on_app_ready w)
        ++ List.filter (startable w) (after_app_ready_tasks w)).
Proof.
  intros Hrun Hdt. cbn zeta.
  destruct (on_app_ready_run w Hrun) as (Hc & Hk & Hp & Ha & Hd).
  assert (Hflag : cache_get "CELERY_APP_READY" 0 (later dt (on_app_ready w))
                  = if dt <? 10 then 1 else 0).
  { apply (cache_get_fresh _ _ _ _ _ w); simpl; [exact Hk | by rewrite Hc]. }
  split; intros Hcase.
  - unfold on_app_ready at 1. rewrite Hflag.
    destruct (Z.ltb_spec dt 10); [reflexivity|lia].
  - assert (Hrun2 : cache_get "CELERY_APP_READY" 0 (later dt (on_app_ready w)) <> 1).
    { rewrite Hflag. destruct (Z.ltb_spec dt 10); [lia|discriminate]. }
    destruct (on_app_ready_run _ Hrun2) as (_ & _ & _ & _ & Hd2).
    rewrite Hd2. simpl. rewrite Ha. f_equal.
    apply List.filter_ext. intros task. apply startable_ext. simpl. exact Hp.
Qed.

Lemma delete_named_twice (tasks : list string) (l : list PeriodicTask) :
  List.filter (fun pt => negb (bool_decide (periodic_name pt ∈ tasks)))
    (List.filter (fun pt => negb (bool_decide (periodic_name pt ∈ tasks))) l)
  = List.filter (fun pt => negb (bool_decide (periodic_name pt ∈ tasks))) l.
Proof.
  induction l as [|pt l IH]; simpl; [reflexivity|].
  destruct (negb (bool_decide (periodic_name pt ∈ tasks))) eqn:E; simpl;
    rewrite ?E, IH; reflexivity.
Qed.

Lemma shutdown_table (w : Worker) :
  PeriodicTask_objects (after_app_shutdown_periodic_tasks w)
  = (if cache_get "CELERY_APP_SHUTDOWN" 0 w =? 1 then PeriodicTask_objects w
     else List.filter
            (fun pt => negb (bool_decide (periodic_name pt ∈ after_app_shutdown_clean_tasks w)))
            (PeriodicTask_objects w))
  /\ after_app_shutdown_clean_tasks (after_app_shutdown_periodic_tasks w)
     = after_app_shutdown_clean_tasks w
  /\ delayed (after_app_shutdown_periodic_tasks w) = delayed w.
Proof.
  unfold after_app_shutdown_periodic_tasks.
  destruct (cache_get "CELERY_APP_SHUTDOWN" 0 w =? 1); repeat split; reflexivity.
Qed.

(** X17.  When the shutdown flag is not set, [after_app_shutdown_periodic_tasks]
    leaves no periodic task named in the clean list and keeps every other
    one, sends nothing to the queue, and a further shutdown signal, at
    whatever time, changes the table no more. *)
Theorem shutdown_cleanup_is_idempotent (w : Worker) (dt : Z) :
  cache_get "CELERY_APP_SHUTDOWN" 0 w <> 1 ->
  let cleaned := after_app_shutdown_periodic_tasks w in
  Forall (fun pt => periodic_name pt ∉ after_app_shutdown_clean_tasks w)
         (PeriodicTask_objects cleaned)
  /\ (forall pt, periodic_name pt ∉ after_app_shutdown_clean_tasks w ->
        In pt (PeriodicTask_objects w) -> In pt (PeriodicTask_objects cleaned))
  /\ PeriodicTask_objects (after_app_shutdown_periodic_tasks (later dt cleaned))
     = PeriodicTask_objects cleaned
  /\ delayed cleaned = delayed w.
Proof.
  intros Hrun. cbn zeta.
  destruct (shutdown_table w) as (Ht & Hl & Hd).
  destruct (Z.eqb_spec (cache_get "CELERY_APP_SHUTDOWN" 0 w) 1); [contradiction|].
  split; [|split; [|split; [|exact Hd]]].
  - rewrite Ht. apply Forall_forall. intros pt Hin%list_elem_of_In%List.filter_In.
    destruct Hin as [_ Hno]. apply negb_true_iff, bool_decide_eq_false in Hno. exact Hno.
  - intros pt Hno Hin. rewrite Ht. apply List.filter_In. split; [exact Hin|].
    apply negb_true_iff, bool_decide_eq_false. exact Hno.
  - destruct (shutdown_table (later dt (after_app_shutdown_periodic_tasks w)))
      as (Ht2 & _ & _).
    rewrite Ht2. simpl. rewrite Hl, Ht.
    destruct (_ =? 1); [reflexivity|]. apply delete_named_twice.
Qed.

(** ** The socket authentication *)

Lemma authenticate_with_skip {Req : Type} (import_string : string -> Imported Req)
    (b : string) (rest : list string) (request : Req) (st : AsgiState) :
  authenticates import_string request b = None ->
  exists st',
    authenticate_with import_string (b :: rest) request st
    = authenticate_with import_string rest request st'.
Proof.
  unfold authenticates. simpl.
  destruct (import_string b) as [msg|auth]; [eauto|].
  destruct (auth request) as [|[u|]|msg]; eauto. discriminate.
Qed.

Lemma authenticate_with_hit {Req : Type} (import_string : string -> Imported Req)
    (b : string) (rest : list string) (request : Req) (st : AsgiState) (u : UserInfo) :
  authenticates import_string request b = Some u ->
  authenticate_with import_string (b :: rest) request st
  = (Some u, {| asgi_log := asgi_log st ++ [LogInfo "web socket auth success"];
                current_user := Some u |}).
Proof.
  unfold authenticates. simpl.
  destruct (import_string b) as [msg|auth]; [discriminate|].
  destruct (auth request) as [|[u'|]|msg]; try discriminate. by intros [= ->].
Qed.

Lemma authenticate_with_first {Req : Type} (import_string : string -> Imported Req)
    (backends : list string) (request : Req) (st : AsgiState) :
  match fst (authenticate_with import_string backends request st) with
  | Some u =>
      exists i b,
        backends !! i = Some b
        /\ authenticates import_string request b = Some u
        /\ forall j b', (j < i)%nat -> backends !! j = Some b' ->
             authenticates import_string request b' = None
  | None =>
      forall b, b ∈ backends -> authenticates import_string request b = None
  end.
Proof.
  revert st. induction backends as [|b rest IH]; intros st.
  - simpl. intros b Hb. by apply elem_of_nil in Hb.
  - destruct (authenticates import_string request b) as [u|] eqn:Hb.
    + rewrite (authenticate_with_hit _ _ _ _ _ _ Hb). simpl.
      exists 0%nat, b. split; [reflexivity|]. split; [exact Hb|]. intros; lia.
    + destruct (authenticate_with_skip _ _ rest _ st Hb) as [st' ->].
      specialize (IH st').
      destruct (fst (authenticate_with import_string rest request st')) as [u|].
      * destruct IH as (i & b0 & Hi & Hu & Hbefore).
        exists (S i), b0. split; [exact Hi|]. split; [exact Hu|].
        intros [|j] b' Hj Hb'; simpl in Hb'; [by simplify_eq|].
        apply (Hbefore j); [lia|exact Hb'].
      * intros b0 [->|Hin]%elem_of_cons; [exact Hb|by apply IH].
Qed.

Lemma get_signature_user_spec {Req : Type} (ASGIRequest : Scope -> Outcome Req)
    (import_string : string -> Imported Req)
    (backends : list string) (scope : Scope) (st : AsgiState) :
  get_signature_user ASGIRequest import_string backends scope st =
  match entries scope !! "type" with
  | None => (Raised (KeyError "type"), scope, st)
  | Some _ =>
      match ASGIRequest (with_method scope) with
      | Raised e => (Raised e, with_method scope, st)
      | Returned request =>
          (Returned (fst (authenticate_with import_string backends request st)),
           with_method scope,
           snd (authenticate_with import_string backends request st))
      end
  end.
Proof.
  unfold get_signature_user, with_method.
  destruct (entries scope !! "type") as [ty|]; [|reflexivity].
  destruct (String.eqb_spec ty "websocket") as [->|Hne].
  - destruct (ASGIRequest _); [|reflexivity]. by destruct (authenticate_with _ _ _ _).
  - assert (Hsame : match ty with
                    | "websocket" =>
                        {| entries := <["method" := "GET"]> (entries scope);
                           scope_user := scope_user scope |}
                    | _ => scope
                    end = scope).
    { clear -Hne. repeat (case_match; try reflexivity). congruence. }
    rewrite Hsame.
    destruct (ASGIRequest _); [|reflexivity]. by destruct (authenticate_with _ _ _ _).
Qed.

(** X18.  On a scope with a [type] of which [ASGIRequest] builds a request,
    [get_signature_user] returns the user of the first configured backend
    that imports and authenticates the request with a user, if there is
    one, and [None] exactly when no backend does; backends that fail to
    import, raise, return [None] or return no user are passed over. *)
Theorem get_signature_user_returns_the_first_success {Req : Type}
    (ASGIRequest : Scope -> Outcome Req) (import_string : string -> Imported Req)
    (backends : list string) (scope : Scope) (st : AsgiState)
    (type : string) (request : Req) :
  entries scope !! "type" = Some type ->
  ASGIRequest (with_method scope) = Returned request ->
  exists result,
    fst (fst (get_signature_user ASGIRequest import_string backends scope st))
    = Returned result
    /\ (forall u, result = Some u <->
          exists i b,
            backends !! i = Some b
            /\ authenticates import_string request b = Some u
            /\ forall j b', (j < i)%nat -> backends !! j = Some b' ->
                 authenticates import_string request b' = None)
    /\ (result = None <->
          forall b, b ∈ backends -> authenticates import_string request b = None).
Proof.
  intros Hty Hreq. rewrite get_signature_user_spec, Hty, Hreq. simpl.
  eexists. split; [reflexivity|].
  pose proof (authenticate_with_first import_string backends request st) as Hfirst.
  destruct (fst (authenticate_with import_string backends request st)) as [u|].
  - destruct Hfirst as (i & b & Hi & Hu & Hbefore). split.
    + intros u'. split.
      * intros [= <-]. eauto.
      * intros (i' & b' & Hi' & Hu' & Hbefore').
        destruct (Nat.lt_total i i') as [Hlt|[->|Hlt]].
        -- rewrite (Hbefore' i b Hlt Hi) in Hu. discriminate.
        -- congruence.
        -- rewrite (Hbefore i' b' Hlt Hi') in Hu'. discriminate.
    + split; [discriminate|]. intros Hnone.
      rewrite (Hnone b) in Hu; [discriminate|]. by eapply list_elem_of_lookup_2.
  - split.
    + intros u. split; [discriminate|].
      intros (i & b & Hi & Hu & _).
      rewrite (Hfirst b) in Hu; [discriminate|]. by eapply list_elem_of_lookup_2.
    + split; [intros _; exact Hfirst | reflexivity].
Qed.

(** X19.  The backends configured after one that authenticates the request
    make no difference to [get_signature_user]: user, scope, log and stored
    request are those of the configuration cut after that backend. *)
Theorem backends_after_the_first_success_are_ignored {Req : Type}
    (ASGIRequest : Scope -> Outcome Req) (import_string : string -> Imported Req)
    (before after : list string) (b : string)
    (scope : Scope) (st : AsgiState) (request : Req) (u : UserInfo) :
  ASGIRequest (with_method scope) = Returned request ->
  authenticates import_string request b = Some u ->
  get_signature_user ASGIRequest import_string (before ++ b :: after) scope st
  = get_signature_user ASGIRequest import_string (before ++ [b]) scope st.
Proof.
  intros Hreq Hb. rewrite !get_signature_user_spec, Hreq.
  destruct (entries scope !! "type"); [|reflexivity].
  assert (Heq : authenticate_with import_string (before ++ b :: after) request st
                = authenticate_with import_string (before ++ [b]) request st).
  { revert st. induction before as [|b0 before IH]; intros st.
    - simpl app. by rewrite !(authenticate_with_hit _ _ _ _ _ _ Hb).
    - simpl. destruct (import_string b0) as [msg|auth]; [apply IH|].
      destruct (auth request) as [|[u0|]|msg]; (reflexivity || apply IH). }
  by rewrite Heq.
Qed.

(** X20.  [WsSignatureAuthMiddleware] hands every scope of which a request can
    be built to the inner application, authenticated or not: with the
    user in the scope when a backend found one, with the user slot as it
    was when none did.  A scope without [type] raises [KeyError], a scope
    [ASGIRequest] refuses raises what [ASGIRequest] raised, and in both
    cases the application is not called. *)
Theorem ws_middleware_always_calls_the_application {Req R : Type}
    (app : Scope -> AsgiState -> R)
    (ASGIRequest : Scope -> Outcome Req) (import_string : string -> Imported Req)
    (backends : list string) (scope : Scope) (st : AsgiState) :
  let found :=
    fst (fst (get_signature_user ASGIRequest import_string backends scope st)) in
  let called :=
    WsSignatureAuthMiddleware_call app ASGIRequest import_string backends scope st in
  match entries scope !! "type" with
  | None => called = Raised (KeyError "type")
  | Some _ =>
      match ASGIRequest (with_method scope) with
      | Raised e => called = Raised e
      | Returned _ =>
          exists scope' st',
            called = Returned (app scope' st')
            /\ entries scope' = entries (with_method scope)
            /\ (found = Returned None -> scope_user scope' = scope_user scope)
            /\ (forall u, found = Returned (Some u) -> scope_user scope' = Some u)
      end
  end.
Proof.
  cbn zeta. unfold WsSignatureAuthMiddleware_call.
  rewrite get_signature_user_spec.
  destruct (entries scope !! "type") as [ty|] eqn:Hty; [|reflexivity].
  destruct (ASGIRequest (with_method scope)) as [request|e]; [|reflexivity].
  simpl.
  destruct (fst (authenticate_with import_string backends request st)) as [u|].
  - do 2 eexists. split; [reflexivity|]. simpl.
    split; [reflexivity|]. split; [discriminate|]. by intros u' [= ->].
  - do 2 eexists. split; [reflexivity|].
    split; [reflexivity|]. split; [|discriminate].
    intros _. unfold with_method. rewrite Hty.
    repeat (case_match; try reflexivity).
Qed.
(** * The further properties at work *)

Module MoreExamples.
Import Fixture Samples.

(** ** Registration *)

(** A second alice is turned away with code 1002. *)
Lemma duplicate_username_witness :
  exists w2,
    @RegisterView_post collaborators on (signup browser_headers "alice" "longenough") fresh
      = (Returned (ApiResponse_error 1002 UsernameExists), w2)
    /\ same_store fresh w2
    /\ events_of fresh w2 [EvChallengeGate; EvCredentialDecode].
Proof.
  eexists.
  eapply (@duplicate_username_answers_1002 collaborators on
            (signup browser_headers "alice" "longenough") fresh _ "alice" "longenough").
  - reflexivity.
  - do 3 eexists. split; reflexivity.
  - reflexivity.
  - reflexivity.
Defined.

Lemma rejected_registration_witness :
  let run :=
    @RegisterView_post collaborators on (signup browser_headers "alice" "longenough") fresh in
  (1002 = 1001 \/ 1002 = 1002)
  /\ resp_data (ApiResponse_error 1002 UsernameExists) = None
  /\ same_store fresh (snd run).
Proof.
  eapply (@rejected_registration_creates_nothing collaborators on
           (signup browser_headers "alice" "longenough") fresh).
  - reflexivity.
  - reflexivity.
Defined.

(** Bob registers without a channel and is bound to the department
    [default]. *)
Lemma registration_binds_witness :
  let request := signup browser_headers "bob" "longenough" in
  exists new_user,
    last (users (snd (@RegisterView_post collaborators on request fresh))) = Some new_user
    /\ username new_user = "bob"
    /\ dept_belong new_user = dept new_user
    /\ (forall c, dept new_user = Some c ->
          exists d, In d (depts fresh) /\ dept_code d = c
                    /\ dept_is_active d = true /\ auto_bind d = true)
    /\ (channel request = "" -> dept new_user = None)
    /\ (channel request <> "" ->
        (exists d, In d (depts fresh) /\ bindable d = true) -> is_Some (dept new_user))
    /\ (channel request <> "" ->
        (exists d, In d (depts fresh) /\ bindable d = true
                   /\ dept_code d = channel request) ->
        dept new_user = Some (channel request)).
Proof.
  eapply (@registration_binds_bindable_department collaborators on
           (signup browser_headers "bob" "longenough") fresh _ "bob" "longenough").
  - reflexivity.
  - do 3 eexists. split; reflexivity.
  - reflexivity.
  - reflexivity.
Defined.

Example bob_is_bound_to_the_default_department :
  dept <$> users (snd (@RegisterView_post collaborators on
                         (signup browser_headers "bob" "longenough") fresh))
  = [None; Some "default"].
Proof. reflexivity. Qed.

(** Bob registers from a client that sends no User-Agent header: the
    request fails, and bob is registered. *)
Lemma failed_audit_witness :
  let request := signup bare_headers "bob" "longenough" in
  exists new_user w',
    @RegisterView_post collaborators on request fresh
      = (Raised (KeyError "HTTP_USER_AGENT"), w')
    /\ users w' = users fresh ++ [new_user]
    /\ username_taken w' "bob" = true
    /\ verified_user w' "bob" "longenough" = Some new_user
    /\ login_log w' = login_log fresh.
Proof.
  eapply (@failed_audit_leaves_user_registered collaborators on
           (signup bare_headers "bob" "longenough") fresh _ "bob" "longenough").
  - reflexivity.
  - do 3 eexists. split; reflexivity.
  - reflexivity.
  - reflexivity.
  - reflexivity.
Defined.

(** ** Login *)

Lemma tokens_only_for_verified_witness :
  let request := login browser_headers "correct horse" in
  let w' := snd (@LoginView_post collaborators on request fresh) in
  exists u p w2 usr,
    @passes_login_gates collaborators on request fresh u p w2
    /\ blocked fresh u (@get_request_ip collaborators (META request)) = false
    /\ verified_user fresh u p = Some usr
    /\ issued_data on fresh alice = issued_data on fresh usr
    /\ token_user_id (access (issued_data on fresh alice)) = pk usr
    /\ token_user_id (refresh (issued_data on fresh alice)) = pk usr
    /\ login_log w'
       = login_log fresh
         ++ [@audit_row collaborators (set_user request (Some usr)) USERNAME true].
Proof.
  eapply (@tokens_only_for_verified_credentials collaborators on
           (login browser_headers "correct horse") fresh _
           (ApiResponse_data (issued_data on fresh alice))).
  - reflexivity.
  - reflexivity.
Defined.

(** A wrong password for alice is recorded against alice. *)
Lemma failed_login_attribution_witness :
  let request := login browser_headers "wrong" in
  exists row,
    login_log (snd (@LoginView_post collaborators on request fresh))
    = login_log fresh ++ [row]
    /\ log_status row = false
    /\ log_creator row = pk <$> attributed_user request fresh
    /\ (data request !! "username" = None -> log_creator row = None)
    /\ (forall name, data request !! "username" = Some name ->
          username_taken fresh name = false -> log_creator row = None).
Proof.
  eapply (@failed_login_is_attributed_by_the_raw_username collaborators on
           (login browser_headers "wrong") fresh _ "alice" "wrong").
  - reflexivity.
  - do 3 eexists. split; reflexivity.
  - reflexivity.
  - reflexivity.
  - reflexivity.
Defined.

(** ** Logout and refresh *)

Lemma second_logout_witness :
  let request := logout (Some (Signed refresh_of_alice)) in
  let w1 := snd (@LogoutView_post collaborators request access_of_alice fresh) in
  black_refresh w1 = {[token_jti refresh_of_alice]} ∪ black_refresh fresh
  /\ RefreshToken (Signed refresh_of_alice) w1
     = (Raised (TokenError "Token is blacklisted"), w1)
  /\ fst (@LogoutView_post collaborators request access_of_alice w1) = Returned ApiResponse_empty
  /\ black_refresh (snd (@LogoutView_post collaborators request access_of_alice w1)) = black_refresh w1.
Proof.
  eapply (@second_logout_swallows_the_revoked_refresh_token collaborators
           (logout (Some (Signed refresh_of_alice))) access_of_alice fresh
           refresh_of_alice).
  - reflexivity.
  - reflexivity.
  - reflexivity.
  - apply not_elem_of_empty.
Defined.

Lemma revoked_refresh_witness :
  let request := logout (Some (Signed refresh_of_alice)) in
  let w1 := set_clock 2000 (snd (@LogoutView_post collaborators request access_of_alice fresh)) in
  @RefreshTokenView_post on request alice w1 = (Raised AuthenticationFailed, w1).
Proof.
  eapply (@revoked_refresh_token_cannot_refresh collaborators on
           (logout (Some (Signed refresh_of_alice)))
           (logout (Some (Signed refresh_of_alice)))
           access_of_alice alice fresh (Signed refresh_of_alice) 2000).
  - reflexivity.
  - reflexivity.
  - vm_compute. discriminate.
Defined.

(** Before the logout the same token refreshes. *)
Example refresh_before_logout :
  exists d w',
    @RefreshTokenView_post on (logout (Some (Signed refresh_of_alice))) alice fresh
    = (Returned d, w')
    /\ token_user_id (new_access d) = 1 /\ token_type (new_access d) = AccessType.
Proof. do 2 eexists. split; [reflexivity|]. split; reflexivity. Qed.

(** ** The worker *)

Lemma on_app_ready_witness :
  delayed (on_app_ready worker)
  = delayed worker ++ List.filter (startable worker) (after_app_ready_tasks worker)
  /\ (forall task, In task (List.filter (startable worker) (after_app_ready_tasks worker)) ->
        forall pt, List.find (fun pt => String.eqb (periodic_task pt) task)
                             (PeriodicTask_objects worker) = Some pt ->
                   periodic_enabled pt = true)
  /\ PeriodicTask_objects (on_app_ready worker) = PeriodicTask_objects worker.
Proof.
  eapply (on_app_ready_starts_the_enabled_tasks worker).
  vm_compute. discriminate.
Defined.

Example ready_worker_skips_the_disabled_purge :
  delayed (on_app_ready worker) = ["tasks.sync"; "tasks.warm"]
  /\ debug_log (on_app_ready worker)
     = ["Work ready signal recv";
        "Start need start task: [tasks.sync, tasks.purge, tasks.warm]";
        "Periodic task [tasks.purge] is disabled!"].
Proof. split; reflexivity. Qed.

Lemma on_app_ready_again_witness :
  let again := on_app_ready (later 3 (on_app_ready worker)) in
  (3 < 10 -> again = later 3 (on_app_ready worker))
  /\ (10 <= 3 ->
      delayed again
      = delayed (on_app_ready worker)
        ++ List.filter (startable worker) (after_app_ready_tasks worker)).
Proof.
  eapply (on_app_ready_runs_once_in_ten_seconds worker 3).
  - vm_compute. discriminate.
  - lia.
Defined.

Lemma shutdown_cleanup_witness :
  let cleaned := after_app_shutdown_periodic_tasks worker in
  Forall (fun pt => periodic_name pt ∉ after_app_shutdown_clean_tasks worker)
         (PeriodicTask_objects cleaned)
  /\ (forall pt, periodic_name pt ∉ after_app_shutdown_clean_tasks worker ->
        In pt (PeriodicTask_objects worker) -> In pt (PeriodicTask_objects cleaned))
  /\ PeriodicTask_objects (after_app_shutdown_periodic_tasks (later 20 cleaned))
     = PeriodicTask_objects cleaned
  /\ delayed cleaned = delayed worker.
Proof.
  eapply (shutdown_cleanup_is_idempotent worker 20).
  vm_compute. discriminate.
Defined.

Example shutdown_removes_the_purge :
  periodic_name <$> PeriodicTask_objects (after_app_shutdown_periodic_tasks worker)
  = ["sync"].
Proof. reflexivity. Qed.

(** ** The socket *)

Lemma first_success_witness :
  let scope := socket "token-of-alice" in
  exists result,
    fst (fst (get_signature_user ASGIRequest import_string backends scope quiet))
    = Returned result
    /\ (forall u, result = Some u <->
          exists i b,
            backends !! i = Some b
            /\ authenticates import_string (with_method scope) b = Some u
            /\ forall j b', (j < i)%nat -> backends !! j = Some b' ->
                 authenticates import_string (with_method scope) b' = None)
    /\ (result = None <->
          forall b, b ∈ backends ->
            authenticates import_string (with_method scope) b = None).
Proof.
  eapply (get_signature_user_returns_the_first_success ASGIRequest import_string backends
           (socket "token-of-alice") quiet "websocket" (with_method (socket "token-of-alice"))).
  - reflexivity.
  - reflexivity.
Defined.

Example socket_of_alice :
  get_signature_user ASGIRequest import_string backends (socket "token-of-alice") quiet
  = (Returned (Some alice),
     with_method (socket "token-of-alice"),
     {| asgi_log :=
          [LogWarning "web socket auth failed by auth.Missing. Exception: No module named auth.Missing";
           LogInfo "web socket auth success"];
        current_user := Some alice |}).
Proof. reflexivity. Qed.

Example socket_of_a_stranger :
  fst (get_signature_user ASGIRequest import_string backends (socket "stale") quiet)
  = (Returned None, with_method (socket "stale")).
Proof. reflexivity. Qed.

Lemma later_backends_witness :
  get_signature_user ASGIRequest import_string
    (["auth.Missing"; "auth.SessionAuthentication"]
       ++ "auth.TokenAuthentication" :: ["auth.Other"])
    (socket "token-of-alice") quiet
  = get_signature_user ASGIRequest import_string
      (["auth.Missing"; "auth.SessionAuthentication"] ++ ["auth.TokenAuthentication"])
      (socket "token-of-alice") quiet.
Proof.
  eapply (backends_after_the_first_success_are_ignored ASGIRequest import_string
           ["auth.Missing"; "auth.SessionAuthentication"] ["auth.Other"]
           "auth.TokenAuthentication" (socket "token-of-alice") quiet
           (with_method (socket "token-of-alice")) alice).
  - reflexivity.
  - reflexivity.
Defined.

End MoreExamples.
